(** * RHD-RHCE notebook: the region translation and the homozygous-alt scan

    A shallow embedding of the Python cells of
    [RHD-RHCE - Small variant calling with Giraffe-DeepVariant.ipynb] that
    carry logic of their own:

    - the cell that subtracts the slice offset from the whole-genome
      coordinates ([coord_sub], [region_subset]);
    - the cell that loops over the variant records of that region and keeps
      the position of the first homozygous-alt record ([var_pos]);
    - the assignment that builds the region handed to [vg find]
      ([region]); the shell command itself is not modelled.

    Python integers are unbounded, hence [Z]; turning one into text is
    not, and [str] raises [ValueError] beyond 4300 digits.  Names of the
    kernel are fields of a record; a name that no cell has bound yet is
    [None] and reading it raises [NameError]. *)

From Stdlib Require Import ZArith List String Ascii Bool Lia.
From Stdlib Require Import Decimal DecimalString DecimalPos DecimalZ.
Import ListNotations.

Local Open Scope Z_scope.
Local Open Scope string_scope.

(** ** The fragment of Python the cells rely on *)

Module Py.

(** The exceptions the cells can raise. *)
Inductive exn : Type :=
| NameError (name : string)
| IndexError
| ValueError.

Inductive res (A : Type) : Type :=
| Ok (a : A)
| Raise (e : exn).
Arguments Ok {A} a.
Arguments Raise {A} e.

Definition res_bind {A B} (m : res A) (k : A -> res B) : res B :=
  match m with
  | Ok a => k a
  | Raise e => Raise e
  end.

(** The values [var_pos] takes: the string it starts from, or the
    integer [record.start]. *)
Inductive value : Type :=
| Str (s : string)
| Int (z : Z).

(** The decimal text of an integer: its digits, [-] in front of a
    negative one. *)
Definition decimal (z : Z) : string :=
  NilZero.string_of_int (Z.to_int z).

(** The number of its digits, the sign not counted. *)
Definition digit_count (z : Z) : nat :=
  String.length (decimal (Z.abs z)).

(** [sys.int_max_str_digits]: the longest integer that CPython 3.10.7 and
    later (the notebook's kernel is 3.10.12) turn into decimal text. *)
Definition int_max_str_digits : nat := 4300.

Definition fits (z : Z) : bool :=
  Nat.leb (digit_count z) int_max_str_digits.

(** [str(z)] for an integer: its decimal text, and [ValueError] when it
    has more digits than the limit. *)
Definition str_int (z : Z) : res string :=
  if fits z then Ok (decimal z) else Raise ValueError.

(** What a [{}] field shows for a value: [format(v, '')], which is
    [str(v)]. *)
Definition str (v : value) : res string :=
  match v with
  | Str s => Ok s
  | Int z => str_int z
  end.

Definition lbrace : ascii := "{"%char.
Definition rbrace : ascii := "}"%char.

(** [template.format(a0, a1, ...)] for templates whose fields are all the
    automatically numbered [{}]: a [{}] takes the next argument (and
    raises [IndexError] when none is left) and shows its [str], whose
    exception it passes on; [{{] and [}}] are the escaped braces;
    arguments left over are ignored.  The template is read from left to
    right, so what is wrong with an earlier field is raised first.  Any
    other use of a brace is a [ValueError] here: a lone [}] is one in
    Python too, and named or numbered fields do not occur in the
    notebook. *)
Fixpoint format (template : string) (args : list value) : res string :=
  match template with
  | EmptyString => Ok EmptyString
  | String c rest =>
      if Ascii.eqb c lbrace then
        match rest with
        | String c' rest' =>
            if Ascii.eqb c' rbrace then
              match args with
              | [] => Raise IndexError
              | a :: args' =>
                  res_bind (str a) (fun shown =>
                    res_bind (format rest' args') (fun s =>
                      Ok (shown ++ s)))
              end
            else if Ascii.eqb c' lbrace then
              res_bind (format rest' args) (fun s => Ok (String lbrace s))
            else Raise ValueError
        | EmptyString => Raise ValueError
        end
      else if Ascii.eqb c rbrace then
        match rest with
        | String c' rest' =>
            if Ascii.eqb c' rbrace then
              res_bind (format rest' args) (fun s => Ok (String rbrace s))
            else Raise ValueError
        | EmptyString => Raise ValueError
        end
      else
        res_bind (format rest args) (fun s => Ok (String c s))
  end.

(** [l[i]] for a list and an index [i >= 0]. *)
Definition index {A} (l : list A) (i : nat) : res A :=
  match nth_error l i with
  | Some a => Ok a
  | None => Raise IndexError
  end.

End Py.

(** ** Data model *)

(** Modelled from the spec: the records come from the cyvcf2 reader, which is
    not part of the notebook.  Of a record the cells use [start] and
    [genotypes], one genotype per sample in the order the file declares
    them, each a pair of allele indices (0 the reference, 1 the first
    alternate allele, ...); the phasing flag that follows the pair is never
    read. *)
Record VariantRecord : Type := {
  contig : string;
  start : Z;
  genotypes : list (Z * Z)
}.

(** What a cell writes to its output area: the text of a [print], or the
    VCF line that [print(record)] shows. *)
Inductive Out : Type :=
| Text (s : string)
| Line (r : VariantRecord).

(** The names of the kernel that the three cells bind, and the output. *)
Record Kernel : Type := {
  g_coord_wg : option (list Z);
  g_offset : option Z;
  g_coord_sub : option (list Z);
  g_region_subset : option string;
  g_var_pos : option Py.value;
  g_record : option VariantRecord;
  g_region : option string;
  stdout : list Out
}.

(** A fresh kernel: nothing bound, nothing printed. *)
Definition fresh : Kernel :=
  {| g_coord_wg := None; g_offset := None; g_coord_sub := None;
     g_region_subset := None; g_var_pos := None; g_record := None;
     g_region := None; stdout := [] |}.

(** The iterator that [vcf_reader(query)] returns: the records it has not
    produced yet, and how many it has produced. *)
Record Iter : Type := {
  pending : list VariantRecord;
  yielded : nat
}.

(** ** Statements as state transformers that may raise *)

Definition M (A : Type) : Type := Kernel -> Py.res (A * Kernel).

Definition ret {A} (a : A) : M A := fun k => Py.Ok (a, k).

Definition bind {A B} (m : M A) (f : A -> M B) : M B :=
  fun k =>
    match m k with
    | Py.Ok (a, k') => f a k'
    | Py.Raise e => Py.Raise e
    end.

Declare Scope py_scope.
Delimit Scope py_scope with py.
Notation "x <- m ;; f" := (bind m (fun x => f))
  (at level 61, m at next level, right associativity) : py_scope.
Notation "m ;; f" := (bind m (fun _ => f))
  (at level 61, right associativity) : py_scope.
Local Open Scope py_scope.

(** An expression that touches no name of the kernel. *)
Definition lift {A} (r : Py.res A) : M A :=
  fun k =>
    match r with
    | Py.Ok a => Py.Ok (a, k)
    | Py.Raise e => Py.Raise e
    end.

(** Reading a name. *)
Definition read {A} (name : string) (field : Kernel -> option A) : M A :=
  fun k =>
    match field k with
    | Some a => Py.Ok (a, k)
    | None => Py.Raise (Py.NameError name)
    end.

(** Assignments, one per name: the kernel after it, and the statement. *)
Definition with_coord_wg (v : list Z) (k : Kernel) : Kernel :=
  {| g_coord_wg := Some v; g_offset := g_offset k;
     g_coord_sub := g_coord_sub k; g_region_subset := g_region_subset k;
     g_var_pos := g_var_pos k; g_record := g_record k;
     g_region := g_region k; stdout := stdout k |}.

Definition set_coord_wg (v : list Z) : M unit :=
  fun k => Py.Ok (tt, with_coord_wg v k).

Definition with_offset (v : Z) (k : Kernel) : Kernel :=
  {| g_coord_wg := g_coord_wg k; g_offset := Some v;
     g_coord_sub := g_coord_sub k; g_region_subset := g_region_subset k;
     g_var_pos := g_var_pos k; g_record := g_record k;
     g_region := g_region k; stdout := stdout k |}.

Definition set_offset (v : Z) : M unit :=
  fun k => Py.Ok (tt, with_offset v k).

Definition with_coord_sub (v : list Z) (k : Kernel) : Kernel :=
  {| g_coord_wg := g_coord_wg k; g_offset := g_offset k;
     g_coord_sub := Some v; g_region_subset := g_region_subset k;
     g_var_pos := g_var_pos k; g_record := g_record k;
     g_region := g_region k; stdout := stdout k |}.

Definition set_coord_sub (v : list Z) : M unit :=
  fun k => Py.Ok (tt, with_coord_sub v k).

Definition with_region_subset (v : string) (k : Kernel) : Kernel :=
  {| g_coord_wg := g_coord_wg k; g_offset := g_offset k;
     g_coord_sub := g_coord_sub k; g_region_subset := Some v;
     g_var_pos := g_var_pos k; g_record := g_record k;
     g_region := g_region k; stdout := stdout k |}.

Definition set_region_subset (v : string) : M unit :=
  fun k => Py.Ok (tt, with_region_subset v k).

Definition with_var_pos (v : Py.value) (k : Kernel) : Kernel :=
  {| g_coord_wg := g_coord_wg k; g_offset := g_offset k;
     g_coord_sub := g_coord_sub k; g_region_subset := g_region_subset k;
     g_var_pos := Some v; g_record := g_record k;
     g_region := g_region k; stdout := stdout k |}.

Definition set_var_pos (v : Py.value) : M unit :=
  fun k => Py.Ok (tt, with_var_pos v k).

Definition with_record (v : VariantRecord) (k : Kernel) : Kernel :=
  {| g_coord_wg := g_coord_wg k; g_offset := g_offset k;
     g_coord_sub := g_coord_sub k; g_region_subset := g_region_subset k;
     g_var_pos := g_var_pos k; g_record := Some v;
     g_region := g_region k; stdout := stdout k |}.

Definition set_record (v : VariantRecord) : M unit :=
  fun k => Py.Ok (tt, with_record v k).

Definition with_region (v : string) (k : Kernel) : Kernel :=
  {| g_coord_wg := g_coord_wg k; g_offset := g_offset k;
     g_coord_sub := g_coord_sub k; g_region_subset := g_region_subset k;
     g_var_pos := g_var_pos k; g_record := g_record k;
     g_region := Some v; stdout := stdout k |}.

Definition set_region (v : string) : M unit :=
  fun k => Py.Ok (tt, with_region v k).

(** [print]: one more item in the output area. *)
Definition with_output (o : Out) (k : Kernel) : Kernel :=
  {| g_coord_wg := g_coord_wg k; g_offset := g_offset k;
     g_coord_sub := g_coord_sub k; g_region_subset := g_region_subset k;
     g_var_pos := g_var_pos k; g_record := g_record k;
     g_region := g_region k; stdout := stdout k ++ [o] |}.

Definition print (o : Out) : M unit :=
  fun k => Py.Ok (tt, with_output o k).

(** ** The cell that translates the region (notebook lines 328-333) *)

(** The body of the comprehension: [pos - offset]. *)
Definition translate (pos offset : Z) : Z := pos - offset.

(** [[pos - offset for pos in coord_wg]]: [coord_wg] is evaluated once,
    [offset] is a global of the body and is looked up at every element;
    [pos] lives in the comprehension's own scope and is not a name of the
    kernel. *)
Fixpoint comprehension (items : list Z) : M (list Z) :=
  match items with
  | [] => ret []
  | pos :: items' =>
      offset <- read "offset" g_offset ;;
      rest <- comprehension items' ;;
      ret (translate pos offset :: rest)
  end.

Definition coord_sub : M (list Z) :=
  coord_wg <- read "coord_wg" g_coord_wg ;;
  comprehension coord_wg.

(** ['chr1:{}-{}'.format(coord_sub[0], coord_sub[1])], the expression of
    lines 332 and 371. *)
Definition region_query : M string :=
  l0 <- read "coord_sub" g_coord_sub ;;
  a <- lift (Py.index l0 0) ;;
  l1 <- read "coord_sub" g_coord_sub ;;
  b <- lift (Py.index l1 1) ;;
  lift (Py.format "chr1:{}-{}" [Py.Int a; Py.Int b]).

(** The whole cell, with the two literals of its first lines as
    parameters. *)
Definition translate_region (coord_wg : list Z) (offset : Z) : M unit :=
  set_coord_wg coord_wg ;;
  set_offset offset ;;
  cs <- coord_sub ;;
  set_coord_sub cs ;;
  q <- region_query ;;
  set_region_subset q ;;
  r <- read "region_subset" g_region_subset ;;
  print (Text ("In this slice of the pangenome, the region of interest is at: " ++ r)).

(** Lines 328 to 330 alone: the two assignments and the comprehension,
    before anything is formatted. *)
Definition translate_coords (coord_wg : list Z) (offset : Z) : M unit :=
  set_coord_wg coord_wg ;;
  set_offset offset ;;
  cs <- coord_sub ;;
  set_coord_sub cs.

(** The literals of the notebook. *)
Definition coord_wg_nb : list Z := [25408683; 25408869].
Definition offset_nb : Z := 25053647.

(** ** The cell that scans the variants (notebook lines 370-376) *)

(** [record.genotypes[0][0] == 1 and record.genotypes[0][1] == 1]; the
    right operand is evaluated only when the left one holds. *)
Definition is_homozygous_alt (record : VariantRecord) : Py.res bool :=
  Py.res_bind (Py.index (genotypes record) 0) (fun g0 =>
    if (fst g0 =? 1)%Z then
      Py.res_bind (Py.index (genotypes record) 0) (fun g1 =>
        Py.Ok (snd g1 =? 1)%Z)
    else Py.Ok false).

(** The [for record in ...] loop with its [break].  [records] is what the
    iterator still holds, [n] the number of records it has produced. *)
Fixpoint find_first_homozygous_alt (records : list VariantRecord) (n : nat)
  : M Iter :=
  match records with
  | [] => ret {| pending := []; yielded := n |}
  | record :: rest =>
      set_record record ;;
      hit <- lift (is_homozygous_alt record) ;;
      if (hit : bool) then
        print (Line record) ;;
        set_var_pos (Py.Int (start record)) ;;
        ret {| pending := rest; yielded := S n |}
      else find_first_homozygous_alt rest (S n)
  end.

(** The whole cell; [vcf_reader] is the reader opened on the VCF file, a
    function from a region query to the records that overlap it. *)
Definition scan_cell (vcf_reader : string -> list VariantRecord) : M Iter :=
  set_var_pos (Py.Str EmptyString) ;;
  q <- region_query ;;
  it <- find_first_homozygous_alt (vcf_reader q) 0 ;;
  v <- read "var_pos" g_var_pos ;;
  s <- lift (Py.format "There is a variant at position {}" [v]) ;;
  print (Text s) ;;
  ret it.

(** ** The assignment that names the region for [vg find] (notebook line 408) *)

(** [region = 'GRCh38.chr1:{}-{}'.format(var_pos, var_pos)], the Python
    line of the cell.  The line after it is a shell command that hands
    the string to [vg find] and writes [graph.vg]; it runs outside Python
    and is not part of this definition. *)
Definition region_cell : M unit :=
  v0 <- read "var_pos" g_var_pos ;;
  v1 <- read "var_pos" g_var_pos ;;
  s <- lift (Py.format "GRCh38.chr1:{}-{}" [v0; v1]) ;;
  set_region s.

(** The translation cell, the scan cell and the assignment of [region],
    in the order of the notebook. *)
Definition notebook (coord_wg : list Z) (offset : Z)
    (vcf_reader : string -> list VariantRecord) : M Iter :=
  translate_region coord_wg offset ;;
  it <- scan_cell vcf_reader ;;
  region_cell ;;
  ret it.

(** ** Notions the properties are stated with *)

(** No [{] and no [}] in a string. *)
Fixpoint brace_free (s : string) : bool :=
  match s with
  | EmptyString => true
  | String c s' =>
      negb (Ascii.eqb c Py.lbrace) && negb (Ascii.eqb c Py.rbrace)
      && brace_free s'
  end.

(** The query text for a start and an end. *)
Definition query_text (name : string) (a b : Z) : string :=
  name ++ ":" ++ Py.decimal a ++ "-" ++ Py.decimal b.

(** The kernel the cell leaves behind. *)
Definition after_translate (s e o : Z) (k : Kernel) : Kernel :=
  with_output
    (Text ("In this slice of the pangenome, the region of interest is at: "
           ++ query_text "chr1" (s - o) (e - o)))
    (with_region_subset (query_text "chr1" (s - o) (e - o))
       (with_coord_sub [s - o; e - o]
          (with_offset o (with_coord_wg [s; e] k)))).

(** The genotype of the first sample of a record. *)
Definition first_sample (r : VariantRecord) (g : Z * Z) : Prop :=
  nth_error (genotypes r) 0 = Some g.

(** A record the scan passes over: its first sample has a genotype, and
    that genotype is not (1,1). *)
Definition other_genotype (r : VariantRecord) : Prop :=
  exists g, first_sample r g /\ g <> (1, 1).

(** The kernel once the loop has passed over [rs]: [record] has been bound
    to each of them in turn, nothing else has changed. *)
Definition passed_over (rs : list VariantRecord) (k : Kernel) : Kernel :=
  fold_left (fun k' r => with_record r k') rs k.

(** The kernel when the loop breaks at [r]. *)
Definition broke_at (r : VariantRecord) (k : Kernel) : Kernel :=
  with_var_pos (Py.Int (start r)) (with_output (Line r) (with_record r k)).

(** Two kernels that agree on [coord_wg] and [offset] only. *)
Definition kernel_a : Kernel :=
  with_offset offset_nb (with_coord_wg coord_wg_nb fresh).

Definition kernel_b : Kernel :=
  with_output (Text "unrelated output")
    (with_var_pos (Py.Int 42)
       (with_region "GRCh38.chr1:1-2"
          (with_coord_sub [0; 0] kernel_a))).

(** The stream of the claim: a heterozygous record, then two records
    homozygous for the first alternate allele. *)
Definition v1 : VariantRecord :=
  {| contig := "chr1"; start := 355037; genotypes := [(0, 1)] |}.
Definition v2 : VariantRecord :=
  {| contig := "chr1"; start := 355040; genotypes := [(1, 1)] |}.
Definition v3 : VariantRecord :=
  {| contig := "chr1"; start := 355101; genotypes := [(1, 1)] |}.

(** Records with the genotypes the claim names. *)
Definition with_genotype (g : Z * Z) : VariantRecord :=
  {| contig := "chr1"; start := 355040; genotypes := [g] |}.

(** No [-] in a string. *)
Fixpoint no_dash (s : string) : bool :=
  match s with
  | EmptyString => true
  | String c s' => negb (Ascii.eqb c "-"%char) && no_dash s'
  end.


(** Two records that the scan cannot tell apart: the same start and the
    same genotype for the first sample (or no sample in either). *)
Definition same_first_sample (r r' : VariantRecord) : Prop :=
  start r = start r'
  /\ nth_error (genotypes r) 0 = nth_error (genotypes r') 0.

(** The names the scan cell does not assign. *)
Definition same_region_names (k k' : Kernel) : Prop :=
  g_coord_wg k' = g_coord_wg k
  /\ g_offset k' = g_offset k
  /\ g_coord_sub k' = g_coord_sub k
  /\ g_region_subset k' = g_region_subset k
  /\ g_region k' = g_region k.

(** A record of a file without samples. *)
Definition sites_only : VariantRecord :=
  {| contig := "chr1"; start := 355038; genotypes := [] |}.

(** The stream of [v1], [v2], [v3] as a cohort file would give it: other
    contig name, two more samples per record. *)
Definition cohort : list VariantRecord :=
  [ {| contig := "GRCh38.chr1"; start := 355037;
       genotypes := [(0, 1); (1, 1); (0, 0)] |};
    {| contig := "GRCh38.chr1"; start := 355040;
       genotypes := [(1, 1); (0, 0); (0, 1)] |};
    {| contig := "GRCh38.chr1"; start := 355101;
       genotypes := [(1, 1); (1, 1); (1, 1)] |} ].

(** The values the scan cell leaves in [var_pos]: the empty string, or an
    integer. *)
Definition scan_value (v : Py.value) : Prop :=
  v = Py.Str EmptyString \/ exists p : Z, v = Py.Int p.

(** * Properties *)

(** ** Formatting *)

Lemma append_empty_r (s : string) : s ++ EmptyString = s.
Proof.
  induction s as [| c s IH]; cbn; [reflexivity | now rewrite IH].
Qed.

(** Text without braces is copied to the output as it is. *)
Lemma format_literal (lit rest : string) (args : list Py.value) :
  brace_free lit = true ->
  Py.format (lit ++ rest) args =
  Py.res_bind (Py.format rest args) (fun s => Py.Ok (lit ++ s)).
Proof.
  induction lit as [| c lit IH]; intros Hfree.
  - cbn [append]. destruct (Py.format rest args); reflexivity.
  - cbn [brace_free] in Hfree.
    apply andb_prop in Hfree as [Hc Hlit].
    apply andb_prop in Hc as [Hl Hr].
    apply negb_true_iff in Hl, Hr.
    cbn [append Py.format]. rewrite Hl, Hr, (IH Hlit).
    destruct (Py.format rest args); reflexivity.
Qed.

(** The two-field template of the notebook, for any text in front of it:
    the first argument is shown, then the second, and the first exception
    among them is the exception of the call. *)
Lemma format_region_cases (name : string) (a b : Py.value) :
  brace_free name = true ->
  Py.format (name ++ ":{}-{}") [a; b] =
  Py.res_bind (Py.str a) (fun sa =>
    Py.res_bind (Py.str b) (fun sb =>
      Py.Ok (name ++ ":" ++ sa ++ "-" ++ sb))).
Proof.
  intros Hfree. rewrite (format_literal name _ _ Hfree).
  cbn [Py.format Ascii.eqb Py.lbrace Py.rbrace Bool.eqb].
  destruct (Py.str a) as [sa | e]; [| reflexivity].
  destruct (Py.str b) as [sb | e]; [| reflexivity].
  cbn [Py.res_bind]. now rewrite append_empty_r.
Qed.


(** An integer within the limit is shown as its decimal text; a longer
    one is a [ValueError]. *)
Lemma str_int_fits (z : Z) :
  Py.fits z = true -> Py.str_int z = Py.Ok (Py.decimal z).
Proof. unfold Py.str_int. now intros ->. Qed.

Lemma str_int_too_long (z : Z) :
  Py.fits z = false -> Py.str_int z = Py.Raise Py.ValueError.
Proof. unfold Py.str_int. now intros ->. Qed.

(** Whenever [str] of an integer is a text, it is its decimal text. *)
Lemma str_int_ok (z : Z) (t : string) :
  Py.str_int z = Py.Ok t -> t = Py.decimal z /\ Py.fits z = true.
Proof.
  unfold Py.str_int. destruct (Py.fits z); [| discriminate].
  intros H. injection H as <-. now split.
Qed.

(** The decimal text of an integer reads back as that integer. *)
Lemma decimal_parse (z : Z) :
  option_map Z.of_int (NilZero.int_of_string (Py.decimal z)) = Some z.
Proof.
  unfold Py.decimal. rewrite NilZero.isi.
  - cbn. now rewrite DecimalZ.of_to.
  - destruct z; cbn; try discriminate.
    intros H. injection H as H. now apply (DecimalPos.Unsigned.to_uint_nonnil p).
  - destruct z; cbn; try discriminate.
    intros H. injection H as H. now apply (DecimalPos.Unsigned.to_uint_nonnil p).
Qed.

(** It has at least one character. *)
Lemma decimal_nonempty (z : Z) : Py.decimal z <> EmptyString.
Proof.
  intros H. pose proof (decimal_parse z) as Hz.
  rewrite H in Hz. discriminate Hz.
Qed.

(** The text [GRCh38.chr1:-] is the query of no pair of integers. *)
Lemma dash_alone_is_no_query (a b : Z) :
  "GRCh38.chr1:-" <> query_text "GRCh38.chr1" a b.
Proof.
  unfold query_text. cbn [append]. intros H.
  injection H as H. destruct (Py.decimal a) as [| c t] eqn:Ha.
  - now apply (decimal_nonempty a).
  - cbn [append] in H. injection H as _ H.
    destruct t; discriminate H.
Qed.

(** Two integers with the same decimal text are equal. *)
Lemma decimal_inj (x y : Z) : Py.decimal x = Py.decimal y -> x = y.
Proof.
  intros H. pose proof (decimal_parse x) as Hx.
  rewrite H, decimal_parse in Hx. now injection Hx.
Qed.


Lemma digits_no_dash (d : Decimal.uint) :
  no_dash (NilEmpty.string_of_uint d) = true.
Proof.
  induction d; cbn; auto.
Qed.

(** The digits of a number: at least one, and no [-] among them. *)
Lemma number_digits (d : Decimal.uint) :
  no_dash (NilZero.string_of_uint d) = true
  /\ NilZero.string_of_uint d <> EmptyString.
Proof.
  destruct d; (split; [| discriminate]);
    first [reflexivity | exact (digits_no_dash d)].
Qed.

(** The decimal text of an integer is a run of digits, with [-] in front of it for a
    negative integer. *)
Lemma decimal_shape (z : Z) :
  exists u : string,
    no_dash u = true /\ u <> EmptyString
    /\ (Py.decimal z = u \/ Py.decimal z = String "-" u).
Proof.
  unfold Py.decimal. destruct z as [| p | p]; cbn [Z.to_int].
  - exists "0". repeat split; [discriminate | now left].
  - exists (NilZero.string_of_uint (Pos.to_uint p)).
    destruct (number_digits (Pos.to_uint p)) as [Hd Hne].
    repeat split; [assumption .. | now left].
  - exists (NilZero.string_of_uint (Pos.to_uint p)).
    destruct (number_digits (Pos.to_uint p)) as [Hd Hne].
    repeat split; [assumption .. | now right].
Qed.

(** Where a run of digits ends at a [-], the run and what follows the
    [-] are determined by the whole text. *)
Lemma split_at_dash (u1 u2 r1 r2 : string) :
  no_dash u1 = true -> no_dash u2 = true ->
  u1 ++ String "-" r1 = u2 ++ String "-" r2 ->
  u1 = u2 /\ r1 = r2.
Proof.
  revert u2. induction u1 as [| c u1 IH]; intros [| c' u2] H1 H2 Heq;
    cbn [append no_dash] in *.
  - injection Heq as ->. now split.
  - injection Heq as <- _. discriminate H2.
  - injection Heq as -> _. discriminate H1.
  - injection Heq as -> Heq.
    apply andb_prop in H1 as [_ H1]. apply andb_prop in H2 as [_ H2].
    destruct (IH u2 H1 H2 Heq) as [-> ->]. now split.
Qed.

(** The text of a region gives back its two integers. *)
Lemma start_end_text_inj (a b a' b' : Z) :
  Py.decimal a ++ "-" ++ Py.decimal b = Py.decimal a' ++ "-" ++ Py.decimal b' ->
  a = a' /\ b = b'.
Proof.
  intros Heq.
  assert (Hstr : Py.decimal a = Py.decimal a' /\ Py.decimal b = Py.decimal b').
  { destruct (decimal_shape a) as (u & Hu & Hne & [Ha | Ha]);
      destruct (decimal_shape a') as (u' & Hu' & Hne' & [Ha' | Ha']);
      rewrite Ha, Ha' in *; cbn [append] in Heq.
    - destruct (split_at_dash _ _ _ _ Hu Hu' Heq) as [-> ->]. now split.
    - destruct u as [| c u]; [now contradiction Hne |].
      cbn [append] in Heq. injection Heq as -> _. discriminate Hu.
    - destruct u' as [| c u']; [now contradiction Hne' |].
      cbn [append] in Heq. injection Heq as <- _. discriminate Hu'.
    - injection Heq as Heq.
      destruct (split_at_dash _ _ _ _ Hu Hu' Heq) as [-> ->]. now split. }
  destruct Hstr as [Ha Hb]. split; now apply decimal_inj.
Qed.

Lemma append_inv_head (p s t : string) : p ++ s = p ++ t -> s = t.
Proof.
  induction p as [| c p IH]; cbn [append]; intros H;
    [assumption | injection H as H; now apply IH].
Qed.

Lemma query_text_inj (name : string) (a b a' b' : Z) :
  query_text name a b = query_text name a' b' -> a = a' /\ b = b'.
Proof.
  unfold query_text. intros H. apply append_inv_head in H.
  cbn [append] in H. injection H as H. now apply start_end_text_inj.
Qed.






(** ** The translation cell, statement by statement *)

Arguments Py.decimal : simpl never.
Arguments Py.fits : simpl never.
Arguments Py.str_int : simpl never.

(** A statement that ends normally hands its value and kernel on. *)
Lemma bind_ok {A B} (m : M A) (f : A -> M B) (k k' : Kernel) (a : A) :
  m k = Py.Ok (a, k') -> bind m f k = f a k'.
Proof. intros H. unfold bind. now rewrite H. Qed.

Lemma read_ok {A} (name : string) (field : Kernel -> option A)
    (k : Kernel) (a : A) :
  field k = Some a -> read name field k = Py.Ok (a, k).
Proof. intros H. unfold read. now rewrite H. Qed.

(** With [offset] bound, the comprehension maps [translate] over the list
    and leaves the kernel as it found it. *)
Lemma comprehension_run (items : list Z) (o : Z) (k : Kernel) :
  g_offset k = Some o ->
  comprehension items k = Py.Ok (map (fun pos => translate pos o) items, k).
Proof.
  intros Ho. induction items as [| pos items IH].
  - reflexivity.
  - cbn [comprehension map]. unfold bind at 1, read. rewrite Ho.
    unfold bind. rewrite IH. reflexivity.
Qed.

Lemma coord_sub_run (wg : list Z) (o : Z) (k : Kernel) :
  g_coord_wg k = Some wg ->
  g_offset k = Some o ->
  coord_sub k = Py.Ok (map (fun pos => translate pos o) wg, k).
Proof.
  intros Hwg Ho. unfold coord_sub, bind, read. rewrite Hwg.
  now apply comprehension_run.
Qed.

(** The query for a [coord_sub] of two entries or more: their text when
    both are within the limit of [str], [ValueError] when one is not. *)
Lemma region_query_cases (a b : Z) (l : list Z) (k : Kernel) :
  g_coord_sub k = Some (a :: b :: l) ->
  region_query k =
  if Py.fits a && Py.fits b then Py.Ok (query_text "chr1" a b, k)
  else Py.Raise Py.ValueError.
Proof.
  intros Hcs. unfold region_query.
  rewrite (bind_ok _ _ _ _ _ (read_ok "coord_sub" _ _ _ Hcs)).
  unfold bind at 1. cbn [lift Py.index nth_error].
  rewrite (bind_ok _ _ _ _ _ (read_ok "coord_sub" _ _ _ Hcs)).
  unfold bind at 1. cbn [lift Py.index nth_error].
  change "chr1:{}-{}" with ("chr1" ++ ":{}-{}").
  rewrite format_region_cases by reflexivity. cbn [Py.str].
  unfold Py.str_int.
  destruct (Py.fits a); [| reflexivity].
  destruct (Py.fits b); reflexivity.
Qed.

Lemma region_query_run (a b : Z) (l : list Z) (k : Kernel) :
  g_coord_sub k = Some (a :: b :: l) ->
  Py.fits a = true -> Py.fits b = true ->
  region_query k = Py.Ok (query_text "chr1" a b, k).
Proof.
  intros Hcs Ha Hb. now rewrite (region_query_cases a b l k Hcs), Ha, Hb.
Qed.

(** Lines 328 to 330 on any list: each entry is translated, nothing
    raises. *)
Lemma translate_coords_run (l : list Z) (o : Z) (k : Kernel) :
  translate_coords l o k =
  Py.Ok (tt, with_coord_sub (map (fun pos => translate pos o) l)
               (with_offset o (with_coord_wg l k))).
Proof.
  unfold translate_coords.
  unfold bind at 1. unfold set_coord_wg.
  unfold bind at 1. unfold set_offset.
  unfold bind at 1.
  rewrite (coord_sub_run l o) by reflexivity.
  reflexivity.
Qed.

(** The cell on two positions: it ends normally when both differences are
    within the limit of [str], and with [ValueError] when one is not. *)
Lemma translate_region_cases (s e o : Z) (k : Kernel) :
  translate_region [s; e] o k =
  if Py.fits (s - o) && Py.fits (e - o)
  then Py.Ok (tt, after_translate s e o k)
  else Py.Raise Py.ValueError.
Proof.
  unfold translate_region.
  unfold bind at 1. unfold set_coord_wg.
  unfold bind at 1. unfold set_offset.
  unfold bind at 1.
  rewrite (coord_sub_run [s; e] o) by reflexivity.
  unfold bind at 1. unfold set_coord_sub.
  unfold bind at 1. cbn [map]. unfold translate.
  rewrite (region_query_cases (s - o) (e - o) []) by reflexivity.
  destruct (Py.fits (s - o) && Py.fits (e - o)); reflexivity.
Qed.

Lemma translate_region_run (s e o : Z) (k : Kernel) :
  Py.fits (s - o) = true -> Py.fits (e - o) = true ->
  translate_region [s; e] o k = Py.Ok (tt, after_translate s e o k).
Proof.
  intros Hs He. now rewrite translate_region_cases, Hs, He.
Qed.

(** ** The scan, record by record *)

Lemma is_homozygous_alt_hit (r : VariantRecord) :
  first_sample r (1, 1) -> is_homozygous_alt r = Py.Ok true.
Proof.
  unfold first_sample, is_homozygous_alt, Py.index. intros ->. reflexivity.
Qed.

Lemma is_homozygous_alt_miss (r : VariantRecord) :
  other_genotype r -> is_homozygous_alt r = Py.Ok false.
Proof.
  intros [[a b] [Hg Hne]].
  unfold first_sample in Hg. unfold is_homozygous_alt, Py.index.
  rewrite Hg. cbn [Py.res_bind fst snd].
  destruct (Z.eqb_spec a 1) as [-> |]; [| reflexivity].
  destruct (Z.eqb_spec b 1) as [-> |]; [| reflexivity].
  now contradiction Hne.
Qed.

(** The test holds for no other genotype than (1,1). *)
Lemma is_homozygous_alt_true (r : VariantRecord) :
  is_homozygous_alt r = Py.Ok true -> first_sample r (1, 1).
Proof.
  unfold first_sample, is_homozygous_alt, Py.index.
  destruct (nth_error (genotypes r) 0) as [[a b] |]; cbn; [| discriminate].
  destruct (Z.eqb_spec a 1) as [-> |]; [| discriminate].
  destruct (Z.eqb_spec b 1) as [-> |]; [reflexivity | discriminate].
Qed.

Lemma find_hit (r : VariantRecord) (rest : list VariantRecord) (n : nat)
    (k : Kernel) :
  first_sample r (1, 1) ->
  find_first_homozygous_alt (r :: rest) n k =
  Py.Ok ({| pending := rest; yielded := S n |}, broke_at r k).
Proof.
  intros Hr. cbn [find_first_homozygous_alt].
  unfold bind at 1. unfold set_record.
  unfold bind at 1. rewrite (is_homozygous_alt_hit r Hr). reflexivity.
Qed.

Lemma find_miss (r : VariantRecord) (rest : list VariantRecord) (n : nat)
    (k : Kernel) :
  other_genotype r ->
  find_first_homozygous_alt (r :: rest) n k =
  find_first_homozygous_alt rest (S n) (with_record r k).
Proof.
  intros Hr. cbn [find_first_homozygous_alt].
  unfold bind at 1. unfold set_record.
  unfold bind at 1. rewrite (is_homozygous_alt_miss r Hr). reflexivity.
Qed.

Lemma find_prefix (pre rest : list VariantRecord) :
  Forall other_genotype pre ->
  forall (n : nat) (k : Kernel),
    find_first_homozygous_alt (pre ++ rest) n k =
    find_first_homozygous_alt rest (n + List.length pre) (passed_over pre k).
Proof.
  induction 1 as [| r pre Hr _ IH]; intros n k.
  - cbn. now rewrite Nat.add_0_r.
  - rewrite <- app_comm_cons, (find_miss r _ n k Hr), IH. cbn [List.length passed_over fold_left].
    now rewrite Nat.add_succ_r.
Qed.

(** What does not depend on [record] is the same after the pass. *)
Lemma passed_over_frame {A} (f : Kernel -> A) :
  (forall r k, f (with_record r k) = f k) ->
  forall (rs : list VariantRecord) (k : Kernel), f (passed_over rs k) = f k.
Proof.
  intros Hf rs. unfold passed_over.
  induction rs as [| r rs IH]; intros k; [reflexivity |].
  cbn [fold_left]. now rewrite IH, Hf.
Qed.

Lemma passed_over_var_pos (rs : list VariantRecord) (k : Kernel) :
  g_var_pos (passed_over rs k) = g_var_pos k.
Proof. now apply passed_over_frame. Qed.

Lemma passed_over_stdout (rs : list VariantRecord) (k : Kernel) :
  stdout (passed_over rs k) = stdout k.
Proof. now apply passed_over_frame. Qed.

(** A stream without a match is read to its end. *)
Lemma find_exhausted (rs : list VariantRecord) (n : nat) (k : Kernel) :
  Forall other_genotype rs ->
  find_first_homozygous_alt rs n k =
  Py.Ok ({| pending := []; yielded := n + List.length rs |}, passed_over rs k).
Proof.
  intros Hrs. rewrite <- (app_nil_r rs) at 1.
  now rewrite (find_prefix rs [] Hrs).
Qed.

(** A record without samples stops the loop with [IndexError]. *)
Lemma find_no_sample (r : VariantRecord) (rest : list VariantRecord)
    (n : nat) (k : Kernel) :
  genotypes r = [] ->
  find_first_homozygous_alt (r :: rest) n k = Py.Raise Py.IndexError.
Proof.
  intros Hr. cbn [find_first_homozygous_alt].
  unfold bind at 1. unfold set_record.
  unfold bind at 1. unfold is_homozygous_alt. now rewrite Hr.
Qed.

(** A record is of one of three kinds. *)
Lemma record_kinds (r : VariantRecord) :
  first_sample r (1, 1) \/ other_genotype r \/ genotypes r = [].
Proof.
  unfold other_genotype, first_sample.
  destruct (genotypes r) as [| [a b] gs]; [now right; right |].
  destruct (Z.eq_dec a 1) as [-> | Ha].
  - destruct (Z.eq_dec b 1) as [-> | Hb]; [now left |].
    right. left. exists (1, b). split; [reflexivity | congruence].
  - right. left. exists (a, b). split; [reflexivity | congruence].
Qed.

(** Every stream either has only records the scan passes over, or a first
    record that it does not pass over. *)
Lemma first_stop (records : list VariantRecord) :
  Forall other_genotype records
  \/ exists pre r post,
       records = (pre ++ r :: post)%list
       /\ Forall other_genotype pre
       /\ (first_sample r (1, 1) \/ genotypes r = []).
Proof.
  induction records as [| r0 rest IH]; [now left |].
  destruct (record_kinds r0) as [Hhit | [Hother | Hnone]].
  - right. exists [], r0, rest. repeat split; [constructor | now left].
  - destruct IH as [Hall | (pre & r & post & -> & Hpre & Hr)].
    + left. now constructor.
    + right. exists (r0 :: pre), r, post.
      repeat split; [now constructor | assumption].
  - right. exists [], r0, rest. repeat split; [constructor | now right].
Qed.

(** The loop is total, and these are all its outcomes: it breaks at the
    first record whose first sample is (1,1), or it reads a stream
    without such a record to its end, or it raises [IndexError] at a
    record without samples that comes before any match. *)
Lemma find_outcome (records : list VariantRecord) (n : nat) (k : Kernel) :
  (exists pre r post,
      records = (pre ++ r :: post)%list
      /\ Forall other_genotype pre /\ first_sample r (1, 1)
      /\ find_first_homozygous_alt records n k =
         Py.Ok ({| pending := post; yielded := S (n + List.length pre) |},
                broke_at r (passed_over pre k)))
  \/ (Forall other_genotype records
      /\ find_first_homozygous_alt records n k =
         Py.Ok ({| pending := []; yielded := n + List.length records |},
                passed_over records k))
  \/ (exists pre r post,
         records = (pre ++ r :: post)%list
         /\ Forall other_genotype pre /\ genotypes r = []
         /\ find_first_homozygous_alt records n k = Py.Raise Py.IndexError).
Proof.
  destruct (first_stop records)
    as [Hall | (pre & r & post & -> & Hpre & [Hhit | Hnone])].
  - right. left. split; [assumption | now apply find_exhausted].
  - left. exists pre, r, post. repeat split; try assumption.
    now rewrite (find_prefix pre _ Hpre), (find_hit r post _ _ Hhit).
  - right. right. exists pre, r, post. repeat split; try assumption.
    now rewrite (find_prefix pre _ Hpre), (find_no_sample r post _ _ Hnone).
Qed.

(** ** The scan cell and the assignment of the region *)

Lemma format_position_cases (v : Py.value) :
  Py.format "There is a variant at position {}" [v] =
  Py.res_bind (Py.str v) (fun t =>
    Py.Ok ("There is a variant at position " ++ t)).
Proof.
  change "There is a variant at position {}"
    with ("There is a variant at position " ++ "{}").
  rewrite format_literal by reflexivity.
  cbn [Py.format Ascii.eqb Py.lbrace Py.rbrace Bool.eqb].
  destruct (Py.str v) as [t | e]; [| reflexivity].
  cbn [Py.res_bind]. now rewrite append_empty_r.
Qed.

(** The scan cell, given what its loop does on the records of the
    query. *)
Lemma scan_cell_run (vcf_reader : string -> list VariantRecord)
    (a b : Z) (l : list Z) (k k1 : Kernel) (it : Iter) (v : Py.value)
    (t : string) :
  g_coord_sub k = Some (a :: b :: l) ->
  Py.fits a = true -> Py.fits b = true ->
  find_first_homozygous_alt (vcf_reader (query_text "chr1" a b)) 0
    (with_var_pos (Py.Str EmptyString) k) = Py.Ok (it, k1) ->
  g_var_pos k1 = Some v ->
  Py.str v = Py.Ok t ->
  scan_cell vcf_reader k =
  Py.Ok (it, with_output
               (Text ("There is a variant at position " ++ t)) k1).
Proof.
  intros Hcs Ha Hb Hloop Hv Ht. unfold scan_cell.
  unfold bind at 1. unfold set_var_pos.
  rewrite (bind_ok _ _ _ _ _
             (region_query_run a b l (with_var_pos (Py.Str EmptyString) k)
                Hcs Ha Hb)).
  rewrite (bind_ok _ _ _ _ _ Hloop).
  rewrite (bind_ok _ _ _ _ _ (read_ok "var_pos" _ _ _ Hv)).
  unfold bind at 1. unfold lift. rewrite format_position_cases, Ht.
  reflexivity.
Qed.

(** The assignment of line 408 for a bound [var_pos]: the text of the
    value on both sides of the dash, or the exception of its [str]. *)
Lemma region_cell_cases (v : Py.value) (k : Kernel) :
  g_var_pos k = Some v ->
  region_cell k =
  match Py.str v with
  | Py.Ok t =>
      Py.Ok (tt, with_region ("GRCh38.chr1" ++ ":" ++ t ++ "-" ++ t) k)
  | Py.Raise e => Py.Raise e
  end.
Proof.
  intros Hv. unfold region_cell.
  rewrite (bind_ok _ _ _ _ _ (read_ok "var_pos" _ _ _ Hv)).
  rewrite (bind_ok _ _ _ _ _ (read_ok "var_pos" _ _ _ Hv)).
  unfold bind at 1. unfold lift.
  change "GRCh38.chr1:{}-{}" with ("GRCh38.chr1" ++ ":{}-{}").
  rewrite format_region_cases by reflexivity.
  destruct (Py.str v) as [t | e]; reflexivity.
Qed.

Lemma region_cell_run (v : Py.value) (t : string) (k : Kernel) :
  g_var_pos k = Some v ->
  Py.str v = Py.Ok t ->
  region_cell k =
  Py.Ok (tt, with_region ("GRCh38.chr1" ++ ":" ++ t ++ "-" ++ t) k).
Proof.
  intros Hv Ht. now rewrite (region_cell_cases v k Hv), Ht.
Qed.

(** * The claims *)

(** ** Translation *)







(** A region that lies before the slice: the differences are negative and
    are formatted with their signs. *)
Example translate_region_before_slice :
  exists k',
    translate_region [0; 5] 10 fresh = Py.Ok (tt, k')
    /\ g_coord_sub k' = Some [-10; -5]
    /\ g_region_subset k' = Some "chr1:-10--5".
Proof. eexists. split; [vm_compute; reflexivity |]. split; reflexivity. Qed.

(** C6: for a fixed offset the translation of a coordinate is injective
    and keeps the order of coordinates. *)
Theorem translate_injective_monotone (o : Z) :
  (forall p1 p2 : Z, translate p1 o = translate p2 o -> p1 = p2)
  /\ (forall a b : Z, a <= b -> translate a o <= translate b o).
Proof.
  unfold translate. split; intros; lia.
Qed.

Lemma translate_injective_monotone_witness :
  (translate 7 3 = translate 7 3 -> 7 = 7)
  /\ (25408683 <= 25408869 /\
      translate 25408683 25053647 <= translate 25408869 25053647).
Proof.
  split.
  - exact (proj1 (translate_injective_monotone 3) 7 7).
  - split; [lia |].
    apply (proj2 (translate_injective_monotone 25053647)). lia.
Defined.

(** C8: the coordinate transform is a function of the coordinates and the
    offset alone. In any two kernels that bind [coord_wg] and [offset] to
    the same values, whatever else they hold, evaluating the comprehension
    gives the same list, namely [translate] mapped over the coordinates;
    evaluating it twice in a row gives that list twice; and each time the
    kernel is handed back exactly as it was. *)
Theorem translate_pure (k1 k2 : Kernel) (wg : list Z) (o : Z) :
  g_coord_wg k1 = Some wg -> g_offset k1 = Some o ->
  g_coord_wg k2 = Some wg -> g_offset k2 = Some o ->
  exists v : list Z,
    v = map (fun pos => translate pos o) wg
    /\ coord_sub k1 = Py.Ok (v, k1)
    /\ coord_sub k2 = Py.Ok (v, k2)
    /\ (x <- coord_sub ;; y <- coord_sub ;; ret (x, y)) k1
       = Py.Ok ((v, v), k1).
Proof.
  intros Hwg1 Ho1 Hwg2 Ho2.
  exists (map (fun pos => translate pos o) wg).
  split; [reflexivity |].
  pose proof (coord_sub_run wg o k1 Hwg1 Ho1) as H1.
  pose proof (coord_sub_run wg o k2 Hwg2 Ho2) as H2.
  repeat split; try assumption.
  now rewrite (bind_ok _ _ _ _ _ H1), (bind_ok _ _ _ _ _ H1).
Qed.

Lemma translate_pure_witness :
  exists v : list Z,
    v = map (fun pos => translate pos offset_nb) coord_wg_nb
    /\ coord_sub kernel_a = Py.Ok (v, kernel_a)
    /\ coord_sub kernel_b = Py.Ok (v, kernel_b)
    /\ (x <- coord_sub ;; y <- coord_sub ;; ret (x, y)) kernel_a
       = Py.Ok ((v, v), kernel_a).
Proof.
  apply (translate_pure kernel_a kernel_b coord_wg_nb offset_nb);
    reflexivity.
Defined.

(** ** The scan *)

(** What a normal end of the loop can have done: either it printed
    nothing and left [var_pos] alone, or it printed one record of the
    stream whose first sample is (1,1) and stored its start. *)
Lemma find_reports (records : list VariantRecord) :
  forall (n : nat) (k k' : Kernel) (it : Iter),
    find_first_homozygous_alt records n k = Py.Ok (it, k') ->
    (stdout k' = stdout k /\ g_var_pos k' = g_var_pos k)
    \/ exists r,
         In r records /\ first_sample r (1, 1)
         /\ stdout k' = (stdout k ++ [Line r])%list
         /\ g_var_pos k' = Some (Py.Int (start r)).
Proof.
  induction records as [| r0 rest IH]; intros n k k' it Hrun.
  - injection Hrun as _ <-. now left.
  - cbn [find_first_homozygous_alt] in Hrun.
    unfold bind at 1 in Hrun. unfold set_record in Hrun.
    unfold bind at 1 in Hrun. unfold lift in Hrun.
    destruct (is_homozygous_alt r0) as [[|] | e] eqn:Htest.
    + injection Hrun as _ <-. right. exists r0.
      repeat split; [now left | now apply is_homozygous_alt_true].
    + destruct (IH _ _ _ _ Hrun) as [[Hout Hpos] | (r & Hin & Hr & Hout & Hpos)].
      * left. now split.
      * right. exists r. repeat split; [now right | assumption ..].
    + discriminate.
Qed.

(** C1: the loop reads the records in their order and breaks at the first
    one whose first sample is (1,1). For a stream [pre ++ r :: post] in
    which [r] is that first record, it ends normally having printed [r]
    and stored [r.start] in [var_pos], with [record] still bound to [r];
    the iterator has produced [length pre + 1] records, the index of [r]
    plus one, and still holds all of [post]. *)
Theorem first_homozygous_alt_found (pre post : list VariantRecord)
    (r : VariantRecord) (k : Kernel) :
  Forall other_genotype pre ->
  first_sample r (1, 1) ->
  exists k',
    find_first_homozygous_alt (pre ++ r :: post) 0 k =
    Py.Ok ({| pending := post; yielded := List.length pre + 1 |}, k')
    /\ g_record k' = Some r
    /\ g_var_pos k' = Some (Py.Int (start r))
    /\ stdout k' = (stdout k ++ [Line r])%list.
Proof.
  intros Hpre Hr. exists (broke_at r (passed_over pre k)).
  split; [| split; [reflexivity | split; [reflexivity |]]].
  - rewrite (find_prefix pre (r :: post) Hpre), (find_hit r post _ _ Hr).
    cbn [Nat.add]. now rewrite Nat.add_1_r.
  - cbn [broke_at with_var_pos with_output with_record stdout].
    now rewrite passed_over_stdout.
Qed.

Lemma first_homozygous_alt_found_witness :
  exists k',
    find_first_homozygous_alt [v1; v2; v3] 0 fresh =
    Py.Ok ({| pending := [v3]; yielded := 2 |}, k')
    /\ g_record k' = Some v2
    /\ g_var_pos k' = Some (Py.Int 355040)
    /\ stdout k' = [Line v2].
Proof.
  apply (first_homozygous_alt_found [v1] [v3] v2 fresh).
  - constructor; [| constructor].
    exists (0, 1). split; [reflexivity | discriminate].
  - reflexivity.
Defined.

(** C9: the test is equality with 1 at both positions and nothing weaker.
    A record whose first sample has any other genotype is passed over: the
    loop binds [record] to it and carries on with the rest, printing
    nothing and leaving [var_pos] alone; and no run of the loop, on any
    stream, ends having reported such a record. *)
Theorem other_genotype_skipped (r : VariantRecord) (g : Z * Z) :
  first_sample r g ->
  g <> (1, 1) ->
  (forall (rest : list VariantRecord) (n : nat) (k : Kernel),
      find_first_homozygous_alt (r :: rest) n k =
      find_first_homozygous_alt rest (S n) (with_record r k))
  /\ (forall (records : list VariantRecord) (n : nat) (k k' : Kernel)
             (it : Iter),
         find_first_homozygous_alt records n k = Py.Ok (it, k') ->
         stdout k' <> (stdout k ++ [Line r])%list).
Proof.
  intros Hg Hne. split.
  - intros rest n k. apply find_miss. now exists g.
  - intros records n k k' it Hrun Hout.
    destruct (find_reports records n k k' it Hrun)
      as [[Hsame _] | (r' & _ & Hr' & Hout' & _)].
    + rewrite Hsame in Hout. apply (f_equal (@List.length Out)) in Hout.
      rewrite length_app in Hout. cbn in Hout. lia.
    + rewrite Hout in Hout'. apply app_inv_head in Hout'.
      injection Hout' as ->. unfold first_sample in Hg, Hr'.
      rewrite Hg in Hr'. now injection Hr' as ->.
Qed.

Lemma other_genotype_skipped_witness :
  (find_first_homozygous_alt [with_genotype (0, 0); v2] 0 fresh =
   find_first_homozygous_alt [v2] 1 (with_record (with_genotype (0, 0)) fresh))
  /\ (find_first_homozygous_alt [with_genotype (2, 2); v2] 0 fresh =
      find_first_homozygous_alt [v2] 1 (with_record (with_genotype (2, 2)) fresh))
  /\ (find_first_homozygous_alt [with_genotype (0, 1); v2] 0 fresh =
      find_first_homozygous_alt [v2] 1 (with_record (with_genotype (0, 1)) fresh))
  /\ (find_first_homozygous_alt [with_genotype (1, 0); v2] 0 fresh =
      find_first_homozygous_alt [v2] 1 (with_record (with_genotype (1, 0)) fresh))
  /\ (find_first_homozygous_alt [with_genotype (1, 2); v2] 0 fresh =
      find_first_homozygous_alt [v2] 1 (with_record (with_genotype (1, 2)) fresh))
  /\ (find_first_homozygous_alt [with_genotype (1, 2); v2] 0 fresh =
      Py.Ok ({| pending := []; yielded := 2 |},
             broke_at v2 (with_record (with_genotype (1, 2)) fresh))
      /\ stdout (broke_at v2 (with_record (with_genotype (1, 2)) fresh))
         <> [Line (with_genotype (1, 2))]).
Proof.
  refine (conj _ (conj _ (conj _ (conj _ (conj _ _))))).
  - apply (proj1 (other_genotype_skipped (with_genotype (0, 0)) (0, 0)
                    eq_refl ltac:(discriminate))).
  - apply (proj1 (other_genotype_skipped (with_genotype (2, 2)) (2, 2)
                    eq_refl ltac:(discriminate))).
  - apply (proj1 (other_genotype_skipped (with_genotype (0, 1)) (0, 1)
                    eq_refl ltac:(discriminate))).
  - apply (proj1 (other_genotype_skipped (with_genotype (1, 0)) (1, 0)
                    eq_refl ltac:(discriminate))).
  - apply (proj1 (other_genotype_skipped (with_genotype (1, 2)) (1, 2)
                    eq_refl ltac:(discriminate))).
  - refine (conj eq_refl _).
    exact (proj2 (other_genotype_skipped (with_genotype (1, 2)) (1, 2)
                    eq_refl ltac:(discriminate))
             [with_genotype (1, 2); v2] 0%nat fresh _ _ eq_refl).
Defined.

(** ** The cells in sequence *)

(** The three cells, given what the loop does on the records of the
    translated region. *)
Lemma notebook_run (vcf_reader : string -> list VariantRecord)
    (s e o : Z) (k k1 : Kernel) (it : Iter) (v : Py.value) (t : string) :
  Py.fits (s - o) = true -> Py.fits (e - o) = true ->
  find_first_homozygous_alt (vcf_reader (query_text "chr1" (s - o) (e - o))) 0
    (with_var_pos (Py.Str EmptyString) (after_translate s e o k)) = Py.Ok (it, k1) ->
  g_var_pos k1 = Some v ->
  Py.str v = Py.Ok t ->
  notebook [s; e] o vcf_reader k =
  Py.Ok (it,
         with_region ("GRCh38.chr1" ++ ":" ++ t ++ "-" ++ t)
           (with_output
              (Text ("There is a variant at position " ++ t)) k1)).
Proof.
  intros Hs He Hloop Hv Ht. unfold notebook.
  rewrite (bind_ok _ _ _ _ _ (translate_region_run s e o k Hs He)).
  rewrite (bind_ok _ _ _ _ _
             (scan_cell_run vcf_reader (s - o) (e - o) []
                (after_translate s e o k) k1 it v t eq_refl Hs He
                Hloop Hv Ht)).
  rewrite (bind_ok _ _ _ _ _
             (region_cell_run v t
                (with_output
                   (Text ("There is a variant at position " ++ t)) k1)
                Hv Ht)).
  reflexivity.
Qed.

(** C4, as the code has it: when the records of the region run out and
    none has a first sample with genotype (1,1), the scan cell ends
    normally with the whole stream read, it has reported no record, and
    [var_pos] holds the empty string it was given before the loop: a
    string, hence the start of no record, but a value all the same, not
    the absence of one. The two entries of [coord_sub] are taken within
    the limit of [str], so that the query of line 371 is built. *)
Theorem no_match_keeps_empty_string
    (vcf_reader : string -> list VariantRecord) (a b : Z) (l : list Z)
    (k : Kernel) :
  g_coord_sub k = Some (a :: b :: l) ->
  Py.fits a = true -> Py.fits b = true ->
  Forall other_genotype (vcf_reader (query_text "chr1" a b)) ->
  exists k',
    scan_cell vcf_reader k =
    Py.Ok ({| pending := [];
              yielded := List.length (vcf_reader (query_text "chr1" a b)) |},
           k')
    /\ g_var_pos k' = Some (Py.Str EmptyString)
    /\ (forall p : Z, g_var_pos k' <> Some (Py.Int p))
    /\ stdout k' =
       (stdout k ++ [Text "There is a variant at position "])%list.
Proof.
  intros Hcs Ha Hb Hnone.
  pose proof (find_exhausted _ 0 (with_var_pos (Py.Str EmptyString) k) Hnone) as Hloop.
  assert (Hv : g_var_pos
                 (passed_over (vcf_reader (query_text "chr1" a b))
                    (with_var_pos (Py.Str EmptyString) k)) = Some (Py.Str EmptyString))
    by now rewrite passed_over_var_pos.
  eexists.
  split; [apply (scan_cell_run vcf_reader a b l k _ _ _ EmptyString
                   Hcs Ha Hb Hloop Hv eq_refl) |].
  cbn [with_output g_var_pos stdout]. rewrite Hv, passed_over_stdout.
  repeat split. intros p. discriminate.
Qed.

Lemma no_match_keeps_empty_string_witness :
  exists k',
    scan_cell (fun _ => [v1]) (with_coord_sub [355036; 355222] fresh) =
    Py.Ok ({| pending := []; yielded := 1 |}, k')
    /\ g_var_pos k' = Some (Py.Str EmptyString)
    /\ (forall p : Z, g_var_pos k' <> Some (Py.Int p))
    /\ stdout k' = [Text "There is a variant at position "].
Proof.
  apply (no_match_keeps_empty_string (fun _ => [v1]) 355036 355222 []
           (with_coord_sub [355036; 355222] fresh)).
  - reflexivity.
  - reflexivity.
  - reflexivity.
  - constructor; [| constructor].
    exists (0, 1). split; [reflexivity | discriminate].
Defined.

(** C4 as the claim words it does not hold: after a scan of a stream with
    one heterozygous record and no other, [var_pos] is not absent. It is
    bound, to the string [''], and the region cell that follows reads it
    as it would read a position and builds a query from it. *)
Lemma no_match_result_is_not_absent :
  exists (it : Iter) (k' : Kernel),
    scan_cell (fun _ => [v1]) (with_coord_sub [355036; 355222] fresh) =
    Py.Ok (it, k')
    /\ g_var_pos k' <> None
    /\ g_var_pos k' = Some (Py.Str EmptyString)
    /\ exists k'',
         region_cell k' = Py.Ok (tt, k'')
         /\ g_region k'' = Some "GRCh38.chr1:-".
Proof.
  eexists. eexists. split; [vm_compute; reflexivity |].
  split; [discriminate |]. split; [reflexivity |].
  eexists. split; [vm_compute; reflexivity | reflexivity].
Qed.

(** C10: without a match the empty string goes on into the next query.
    Run from any kernel on two positions and an offset whose differences
    are within the limit of [str], with a reader whose records for the
    translated region all have a first sample and none with genotype
    (1,1), the three cells end normally, [var_pos] is still the empty
    string, and [region] is [GRCh38.chr1:-], with nothing on either side
    of the dash: the query of no pair of integers. *)
Theorem no_match_propagates_empty_string
    (vcf_reader : string -> list VariantRecord) (s e o : Z) (k : Kernel) :
  Py.fits (s - o) = true -> Py.fits (e - o) = true ->
  Forall other_genotype
    (vcf_reader (query_text "chr1" (s - o) (e - o))) ->
  exists (it : Iter) (k' : Kernel),
    notebook [s; e] o vcf_reader k = Py.Ok (it, k')
    /\ pending it = []
    /\ g_var_pos k' = Some (Py.Str EmptyString)
    /\ g_region k' = Some "GRCh38.chr1:-"
    /\ forall a b : Z, g_region k' <> Some (query_text "GRCh38.chr1" a b).
Proof.
  intros Hs He Hnone.
  pose proof (find_exhausted _ 0
                (with_var_pos (Py.Str EmptyString) (after_translate s e o k)) Hnone)
    as Hloop.
  assert (Hv : g_var_pos
                 (passed_over
                    (vcf_reader (query_text "chr1" (s - o) (e - o)))
                    (with_var_pos (Py.Str EmptyString) (after_translate s e o k)))
               = Some (Py.Str EmptyString))
    by now rewrite passed_over_var_pos.
  eexists. eexists.
  split; [apply (notebook_run vcf_reader s e o k _ _ _ EmptyString
                   Hs He Hloop Hv eq_refl) |].
  split; [reflexivity |].
  split; [exact Hv |]. split; [reflexivity |].
  intros a b H.
  apply (f_equal (fun x => match x with Some t => t | None => EmptyString end)) in H.
  exact (dash_alone_is_no_query a b H).
Qed.

Lemma no_match_propagates_empty_string_witness :
  exists (it : Iter) (k' : Kernel),
    notebook coord_wg_nb offset_nb (fun _ => [v1]) fresh = Py.Ok (it, k')
    /\ pending it = []
    /\ g_var_pos k' = Some (Py.Str EmptyString)
    /\ g_region k' = Some "GRCh38.chr1:-"
    /\ forall a b : Z, g_region k' <> Some (query_text "GRCh38.chr1" a b).
Proof.
  apply (no_match_propagates_empty_string (fun _ => [v1])
           25408683 25408869 25053647 fresh).
  - reflexivity.
  - reflexivity.
  - constructor; [| constructor].
    exists (0, 1). split; [reflexivity | discriminate].
Defined.

(** C3: the scenario of the notebook. The whole-genome region
    [25408683, 25408869] with offset 25053647 becomes [355036, 355222];
    when the reader answers the query for that region with one record at
    355040 whose first sample is (1,1), the three cells end normally, the
    loop has reported that record, [var_pos] is 355040 and the region
    handed to the subgraph extraction is [GRCh38.chr1:355040-355040]. *)
Theorem rhce_scenario (vcf_reader : string -> list VariantRecord)
    (r : VariantRecord) (k : Kernel) :
  vcf_reader "chr1:355036-355222" = [r] ->
  start r = 355040 ->
  first_sample r (1, 1) ->
  exists k',
    notebook coord_wg_nb offset_nb vcf_reader k =
    Py.Ok ({| pending := []; yielded := 1 |}, k')
    /\ g_coord_sub k' = Some [355036; 355222]
    /\ g_region_subset k' = Some "chr1:355036-355222"
    /\ g_record k' = Some r
    /\ In (Line r) (stdout k')
    /\ g_var_pos k' = Some (Py.Int 355040)
    /\ g_region k' = Some "GRCh38.chr1:355040-355040".
Proof.
  intros Hstream Hstart Hr.
  set (k0 := with_var_pos (Py.Str EmptyString)
               (after_translate 25408683 25408869 offset_nb k)).
  assert (Hloop :
            find_first_homozygous_alt
              (vcf_reader
                 (query_text "chr1" (25408683 - offset_nb)
                    (25408869 - offset_nb))) 0 k0
            = Py.Ok ({| pending := []; yielded := 1 |}, broke_at r k0)).
  { change (query_text "chr1" (25408683 - offset_nb) (25408869 - offset_nb))
      with "chr1:355036-355222".
    rewrite Hstream. now apply find_hit. }
  assert (Ht : Py.str (Py.Int (start r)) = Py.Ok "355040")
    by (rewrite Hstart; reflexivity).
  eexists. split.
  - apply (notebook_run vcf_reader 25408683 25408869 offset_nb k
             (broke_at r k0) _ (Py.Int (start r)) "355040"
             eq_refl eq_refl Hloop eq_refl Ht).
  - unfold broke_at. rewrite Hstart.
    split; [reflexivity |]. split; [reflexivity |]. split; [reflexivity |].
    split; [| split; reflexivity].
    cbn [stdout with_region with_output with_var_pos with_record].
    apply in_or_app. left. apply in_or_app. right. now left.
Qed.

Lemma rhce_scenario_witness :
  exists k',
    notebook coord_wg_nb offset_nb (fun _ => [v2]) fresh =
    Py.Ok ({| pending := []; yielded := 1 |}, k')
    /\ g_coord_sub k' = Some [355036; 355222]
    /\ g_region_subset k' = Some "chr1:355036-355222"
    /\ g_record k' = Some v2
    /\ In (Line v2) (stdout k')
    /\ g_var_pos k' = Some (Py.Int 355040)
    /\ g_region k' = Some "GRCh38.chr1:355040-355040".
Proof.
  apply (rhce_scenario (fun _ => [v2]) v2 fresh); reflexivity.
Defined.

(** ** The query strings *)





(** * Further properties of the cells *)

(** ** The translation cell on any list *)

(** The cell on a list of two coordinates or more. *)
Lemma translate_region_cases_list (a b : Z) (rest : list Z) (o : Z)
    (k : Kernel) :
  translate_region (a :: b :: rest) o k =
  if Py.fits (a - o) && Py.fits (b - o) then
    Py.Ok (tt,
           with_output
             (Text ("In this slice of the pangenome, the region of interest is at: "
                    ++ query_text "chr1" (a - o) (b - o)))
             (with_region_subset (query_text "chr1" (a - o) (b - o))
                (with_coord_sub
                   (map (fun pos => translate pos o) (a :: b :: rest))
                   (with_offset o (with_coord_wg (a :: b :: rest) k)))))
  else Py.Raise Py.ValueError.
Proof.
  unfold translate_region.
  unfold bind at 1. unfold set_coord_wg.
  unfold bind at 1. unfold set_offset.
  unfold bind at 1.
  rewrite (coord_sub_run (a :: b :: rest) o) by reflexivity.
  unfold bind at 1. unfold set_coord_sub.
  unfold bind at 1. cbn [map]. unfold translate at 1 2.
  rewrite (region_query_cases (a - o) (b - o)
             (map (fun pos => translate pos o) rest)) by reflexivity.
  destruct (Py.fits (a - o) && Py.fits (b - o)); reflexivity.
Qed.

(** X1: the translation cell takes a list of any length from two on. When
    the first two differences are within the limit of [str], the cell
    ends normally; every entry is translated, in its place, so
    [coord_sub] is as long as [coord_wg]; [region_subset] and the line
    printed are made of the first two entries only, whatever follows
    them, and however long the later differences are. *)
Theorem translate_region_any_list (a b : Z) (rest : list Z) (o : Z)
    (k : Kernel) :
  Py.fits (a - o) = true -> Py.fits (b - o) = true ->
  exists (k' : Kernel) (cs : list Z),
    translate_region (a :: b :: rest) o k = Py.Ok (tt, k')
    /\ g_coord_sub k' = Some cs
    /\ List.length cs = List.length (a :: b :: rest)
    /\ (forall (i : nat) (p : Z),
           nth_error (a :: b :: rest) i = Some p ->
           nth_error cs i = Some (p - o))
    /\ g_region_subset k' = Some (query_text "chr1" (a - o) (b - o))
    /\ stdout k' =
       (stdout k ++
        [Text ("In this slice of the pangenome, the region of interest is at: "
               ++ query_text "chr1" (a - o) (b - o))])%list.
Proof.
  intros Ha Hb.
  eexists. exists (map (fun pos => translate pos o) (a :: b :: rest)).
  split; [rewrite translate_region_cases_list, Ha, Hb; reflexivity |].
  split; [reflexivity |]. split; [apply length_map |].
  split; [| split; reflexivity].
  intros i p Hi. now rewrite nth_error_map, Hi.
Qed.

Lemma translate_region_any_list_witness :
  exists (k' : Kernel) (cs : list Z),
    translate_region [25408683; 25408869; 10 ^ 4300] 25053647 fresh
    = Py.Ok (tt, k')
    /\ g_coord_sub k' = Some cs
    /\ List.length cs = 3%nat
    /\ (forall (i : nat) (p : Z),
           nth_error [25408683; 25408869; 10 ^ 4300] i = Some p ->
           nth_error cs i = Some (p - 25053647))
    /\ g_region_subset k' =
       Some (query_text "chr1" (25408683 - 25053647) (25408869 - 25053647))
    /\ stdout k' =
       [Text ("In this slice of the pangenome, the region of interest is at: "
              ++ query_text "chr1" (25408683 - 25053647)
                   (25408869 - 25053647))].
Proof.
  apply (translate_region_any_list 25408683 25408869 [10 ^ 4300] 25053647
           fresh); reflexivity.
Defined.

(** X2: with fewer than two coordinates the translation cell raises
    [IndexError]: at [coord_sub[0]] when the list is empty, at
    [coord_sub[1]] when it has one entry. It does so from any kernel and
    for any offset. *)
Theorem translate_region_short_list (coord_wg : list Z) (o : Z) (k : Kernel) :
  (List.length coord_wg < 2)%nat ->
  translate_region coord_wg o k = Py.Raise Py.IndexError.
Proof.
  destruct coord_wg as [| a [| b rest]]; cbn [List.length]; intros Hlen;
    [reflexivity | reflexivity | lia].
Qed.

Lemma translate_region_short_list_witness :
  translate_region [] offset_nb fresh = Py.Raise Py.IndexError
  /\ translate_region [25408683] offset_nb kernel_b = Py.Raise Py.IndexError.
Proof.
  split.
  - apply (translate_region_short_list [] offset_nb fresh). cbn. lia.
  - apply (translate_region_short_list [25408683] offset_nb kernel_b).
    cbn. lia.
Defined.

(** X3: the text bound to [region_subset] tells the translated region. If
    two runs of the translation cell, on any positions, offsets and
    kernels, bind [region_subset] to the same text, then their translated
    starts are equal and their translated ends are equal. *)
Theorem region_subset_determines_region (s e o s' e' o' : Z)
    (k1 k2 k1' k2' : Kernel) :
  translate_region [s; e] o k1 = Py.Ok (tt, k1') ->
  translate_region [s'; e'] o' k2 = Py.Ok (tt, k2') ->
  g_region_subset k1' = g_region_subset k2' ->
  s - o = s' - o' /\ e - o = e' - o'.
Proof.
  rewrite !translate_region_cases. intros H1 H2 Hq.
  destruct (Py.fits (s - o) && Py.fits (e - o)); [| discriminate H1].
  destruct (Py.fits (s' - o') && Py.fits (e' - o')); [| discriminate H2].
  injection H1 as <-. injection H2 as <-.
  apply (f_equal (fun x => match x with Some t => t | None => "chr1" end))
    in Hq.
  exact (query_text_inj "chr1" _ _ _ _ Hq).
Qed.

Lemma region_subset_determines_region_witness :
  25408683 - 25053647 = 355036 - 0 /\ 25408869 - 25053647 = 355222 - 0.
Proof.
  apply (region_subset_determines_region
           25408683 25408869 25053647 355036 355222 0
           fresh kernel_b
           (after_translate 25408683 25408869 25053647 fresh)
           (after_translate 355036 355222 0 kernel_b)).
  - apply translate_region_run; reflexivity.
  - apply translate_region_run; reflexivity.
  - reflexivity.
Defined.

(** ** Names that are not bound *)

(** X4: how the comprehension of line 330 looks its names up. [coord_wg]
    is needed in every case: unbound, the comprehension raises
    [NameError] on it. [offset] is looked up in the body, once per
    element: over an empty list it is never needed and the result is the
    empty list even if [offset] is unbound; over a list with an element it
    is needed, and unbound it raises [NameError]. *)
Theorem coord_sub_name_lookup (k : Kernel) :
  (g_coord_wg k = None ->
   coord_sub k = Py.Raise (Py.NameError "coord_wg"))
  /\ (g_coord_wg k = Some [] -> coord_sub k = Py.Ok ([], k))
  /\ (forall (p : Z) (l : list Z),
         g_coord_wg k = Some (p :: l) -> g_offset k = None ->
         coord_sub k = Py.Raise (Py.NameError "offset")).
Proof.
  unfold coord_sub, bind, read. split; [| split].
  - intros ->. reflexivity.
  - intros ->. reflexivity.
  - intros p l -> Ho. cbn [comprehension]. unfold bind, read.
    now rewrite Ho.
Qed.

Lemma coord_sub_name_lookup_witness :
  coord_sub fresh = Py.Raise (Py.NameError "coord_wg")
  /\ coord_sub (with_coord_wg [] fresh) = Py.Ok ([], with_coord_wg [] fresh)
  /\ coord_sub (with_coord_wg coord_wg_nb fresh) =
     Py.Raise (Py.NameError "offset").
Proof.
  split; [| split].
  - exact (proj1 (coord_sub_name_lookup fresh) eq_refl).
  - exact (proj1 (proj2 (coord_sub_name_lookup (with_coord_wg [] fresh)))
             eq_refl).
  - exact (proj2 (proj2 (coord_sub_name_lookup
                           (with_coord_wg coord_wg_nb fresh)))
             25408683 [25408869] eq_refl eq_refl).
Defined.

(** X5: the scan cell and the region cell need the cells before them. In
    a kernel where [coord_sub] is not bound the scan cell raises
    [NameError] on it, whatever the reader holds; where [coord_sub] has
    fewer than two entries it raises [IndexError]; and in a kernel where
    [var_pos] is not bound the region cell raises [NameError] on it. *)
Theorem cells_out_of_order (vcf_reader : string -> list VariantRecord)
    (k : Kernel) :
  (g_coord_sub k = None ->
   scan_cell vcf_reader k = Py.Raise (Py.NameError "coord_sub"))
  /\ (forall l : list Z,
         g_coord_sub k = Some l -> (List.length l < 2)%nat ->
         scan_cell vcf_reader k = Py.Raise Py.IndexError)
  /\ (g_var_pos k = None ->
      region_cell k = Py.Raise (Py.NameError "var_pos")).
Proof.
  split; [| split].
  - intros Hcs. unfold scan_cell.
    unfold bind at 1. unfold set_var_pos.
    unfold bind at 1. unfold region_query.
    unfold bind at 1. unfold read.
    cbn [with_var_pos g_coord_sub]. now rewrite Hcs.
  - intros l Hcs Hlen. unfold scan_cell.
    unfold bind at 1. unfold set_var_pos.
    unfold bind at 1. unfold region_query.
    unfold bind at 1. unfold read at 1.
    cbn [with_var_pos g_coord_sub]. rewrite Hcs.
    destruct l as [| a [| b rest]]; cbn [List.length] in Hlen;
      [reflexivity | | lia].
    unfold bind at 1. cbn [lift Py.index nth_error].
    unfold bind at 1. unfold read at 1.
    cbn [with_var_pos g_coord_sub]. rewrite Hcs. reflexivity.
  - intros Hv. unfold region_cell, bind, read. now rewrite Hv.
Qed.

Lemma cells_out_of_order_witness :
  scan_cell (fun _ => [v2]) fresh = Py.Raise (Py.NameError "coord_sub")
  /\ scan_cell (fun _ => [v2]) (with_coord_sub [355036] fresh) =
     Py.Raise Py.IndexError
  /\ region_cell kernel_a = Py.Raise (Py.NameError "var_pos").
Proof.
  split; [| split].
  - exact (proj1 (cells_out_of_order (fun _ => [v2]) fresh) eq_refl).
  - apply (proj1 (proj2 (cells_out_of_order (fun _ => [v2])
                           (with_coord_sub [355036] fresh))) [355036]).
    + reflexivity.
    + cbn. lia.
  - exact (proj2 (proj2 (cells_out_of_order (fun _ => []) kernel_a)) eq_refl).
Defined.

(** ** The scan cell as a whole *)

(** An exception ends the statements that follow. *)
Lemma bind_raise {A B} (m : M A) (f : A -> M B) (k : Kernel) (e : Py.exn) :
  m k = Py.Raise e -> bind m f k = Py.Raise e.
Proof. intros H. unfold bind. now rewrite H. Qed.

(** What a run that ends normally went through. *)
Lemma bind_inv {A B} (m : M A) (f : A -> M B) (k k' : Kernel) (b : B) :
  bind m f k = Py.Ok (b, k') ->
  exists (a : A) (k1 : Kernel), m k = Py.Ok (a, k1) /\ f a k1 = Py.Ok (b, k').
Proof.
  unfold bind. destruct (m k) as [[a k1] | e]; [| discriminate].
  intros H. now exists a, k1.
Qed.

(** An exception of the loop is an exception of the cell. *)
Lemma scan_cell_raise (vcf_reader : string -> list VariantRecord)
    (a b : Z) (l : list Z) (k : Kernel) (e : Py.exn) :
  g_coord_sub k = Some (a :: b :: l) ->
  Py.fits a = true -> Py.fits b = true ->
  find_first_homozygous_alt (vcf_reader (query_text "chr1" a b)) 0
    (with_var_pos (Py.Str EmptyString) k) = Py.Raise e ->
  scan_cell vcf_reader k = Py.Raise e.
Proof.
  intros Hcs Ha Hb Hloop. unfold scan_cell.
  unfold bind at 1. unfold set_var_pos.
  rewrite (bind_ok _ _ _ _ _
             (region_query_run a b l (with_var_pos (Py.Str EmptyString) k)
                Hcs Ha Hb)).
  now apply bind_raise.
Qed.

(** X6: once [coord_sub] holds two entries within the limit of [str], and
    the starts of the records are within it too (as any position of a VCF
    file is), the scan cell has three outcomes and no other, decided by
    the records the reader gives for the query of those entries. If a
    record with first-sample genotype (1,1) comes before any record
    without samples, the cell stops at the first such record, prints it
    and then the message with its start. If all records have another
    first-sample genotype, the cell reads them all and prints the message
    with nothing after [position]. If a record without samples comes
    first, the cell raises [IndexError], even when a match follows it. *)
Theorem scan_cell_outcomes (vcf_reader : string -> list VariantRecord)
    (a b : Z) (l : list Z) (k : Kernel) :
  g_coord_sub k = Some (a :: b :: l) ->
  Py.fits a = true -> Py.fits b = true ->
  Forall (fun r => Py.fits (start r) = true)
    (vcf_reader (query_text "chr1" a b)) ->
  (exists pre r post k',
      vcf_reader (query_text "chr1" a b) = (pre ++ r :: post)%list
      /\ Forall other_genotype pre /\ first_sample r (1, 1)
      /\ scan_cell vcf_reader k =
         Py.Ok ({| pending := post; yielded := S (List.length pre) |}, k')
      /\ g_var_pos k' = Some (Py.Int (start r))
      /\ stdout k' =
         (stdout k ++
          [Line r;
           Text ("There is a variant at position " ++ Py.decimal (start r))])%list)
  \/ (Forall other_genotype (vcf_reader (query_text "chr1" a b))
      /\ exists k',
           scan_cell vcf_reader k =
           Py.Ok ({| pending := [];
                     yielded :=
                       List.length (vcf_reader (query_text "chr1" a b)) |},
                  k')
           /\ g_var_pos k' = Some (Py.Str EmptyString)
           /\ stdout k' =
              (stdout k ++ [Text "There is a variant at position "])%list)
  \/ (exists pre r post,
         vcf_reader (query_text "chr1" a b) = (pre ++ r :: post)%list
         /\ Forall other_genotype pre /\ genotypes r = []
         /\ scan_cell vcf_reader k = Py.Raise Py.IndexError).
Proof.
  intros Hcs Ha Hb Hstarts.
  destruct (find_outcome (vcf_reader (query_text "chr1" a b)) 0
              (with_var_pos (Py.Str EmptyString) k))
    as [(pre & r & post & Hrs & Hpre & Hr & Hloop)
       | [[Hall Hloop] | (pre & r & post & Hrs & Hpre & Hr & Hloop)]].
  - left. exists pre, r, post. eexists.
    split; [assumption |]. split; [assumption |]. split; [assumption |].
    assert (Hfit : Py.fits (start r) = true).
    { rewrite Hrs in Hstarts. apply Forall_app in Hstarts as [_ Hstarts].
      now inversion Hstarts. }
    split.
    + apply (scan_cell_run vcf_reader a b l k _ _ (Py.Int (start r))
               (Py.decimal (start r)) Hcs Ha Hb Hloop eq_refl
               (str_int_fits _ Hfit)).
    + split; [reflexivity |].
      cbn [with_output broke_at with_var_pos with_record stdout].
      rewrite passed_over_stdout. cbn [with_var_pos stdout].
      now rewrite <- app_assoc.
  - right. left. split; [assumption |].
    assert (Hv : g_var_pos
                   (passed_over (vcf_reader (query_text "chr1" a b))
                      (with_var_pos (Py.Str EmptyString) k))
                 = Some (Py.Str EmptyString))
      by now rewrite passed_over_var_pos.
    eexists. split.
    + apply (scan_cell_run vcf_reader a b l k _ _ _ EmptyString
               Hcs Ha Hb Hloop Hv eq_refl).
    + split; [exact Hv |]. cbn [with_output stdout].
      now rewrite passed_over_stdout.
  - right. right. exists pre, r, post.
    repeat split; try assumption.
    now apply (scan_cell_raise vcf_reader a b l k).
Qed.

Lemma scan_cell_outcomes_witness :
  (exists pre r post k',
      [v1; v2; v3] = (pre ++ r :: post)%list
      /\ Forall other_genotype pre /\ first_sample r (1, 1)
      /\ scan_cell (fun _ => [v1; v2; v3])
           (with_coord_sub [355036; 355222] fresh) =
         Py.Ok ({| pending := post; yielded := S (List.length pre) |}, k')
      /\ g_var_pos k' = Some (Py.Int (start r))
      /\ stdout k' =
         [Line r;
          Text ("There is a variant at position " ++ Py.decimal (start r))])
  \/ (Forall other_genotype [v1; v2; v3]
      /\ exists k',
           scan_cell (fun _ => [v1; v2; v3])
             (with_coord_sub [355036; 355222] fresh) =
           Py.Ok ({| pending := []; yielded := 3 |}, k')
           /\ g_var_pos k' = Some (Py.Str EmptyString)
           /\ stdout k' = [Text "There is a variant at position "])
  \/ (exists pre r post,
         [v1; v2; v3] = (pre ++ r :: post)%list
         /\ Forall other_genotype pre /\ genotypes r = []
         /\ scan_cell (fun _ => [v1; v2; v3])
              (with_coord_sub [355036; 355222] fresh) =
            Py.Raise Py.IndexError).
Proof.
  apply (scan_cell_outcomes (fun _ => [v1; v2; v3]) 355036 355222 []
           (with_coord_sub [355036; 355222] fresh)).
  - reflexivity.
  - reflexivity.
  - reflexivity.
  - repeat constructor.
Defined.

(** X7: a record without samples stops the scan cell with [IndexError]
    when no record before it has first-sample genotype (1,1); the records
    after it, matches included, are never looked at. The two entries of
    [coord_sub] are taken within the limit of [str], so that the query is
    built and the records are read. *)
Theorem scan_cell_no_sample (vcf_reader : string -> list VariantRecord)
    (a b : Z) (l : list Z) (k : Kernel)
    (pre post : list VariantRecord) (r : VariantRecord) :
  g_coord_sub k = Some (a :: b :: l) ->
  Py.fits a = true -> Py.fits b = true ->
  vcf_reader (query_text "chr1" a b) = (pre ++ r :: post)%list ->
  Forall other_genotype pre ->
  genotypes r = [] ->
  scan_cell vcf_reader k = Py.Raise Py.IndexError.
Proof.
  intros Hcs Ha Hb Hrs Hpre Hr.
  apply (scan_cell_raise vcf_reader a b l k _ Hcs Ha Hb).
  now rewrite Hrs, (find_prefix pre _ Hpre), (find_no_sample r post _ _ Hr).
Qed.

Lemma scan_cell_no_sample_witness :
  scan_cell (fun _ => [v1; sites_only; v2])
    (with_coord_sub [355036; 355222] fresh) = Py.Raise Py.IndexError.
Proof.
  apply (scan_cell_no_sample (fun _ => [v1; sites_only; v2]) 355036 355222 []
           (with_coord_sub [355036; 355222] fresh) [v1] [v2] sites_only).
  - reflexivity.
  - reflexivity.
  - reflexivity.
  - reflexivity.
  - constructor; [| constructor].
    exists (0, 1). split; [reflexivity | discriminate].
  - reflexivity.
Defined.

(** X8: the loop loses no record and reads none twice. Whenever it ends
    normally, what the iterator still holds is the tail of the stream that
    follows the records it has produced, and the count of produced records
    has grown by exactly the number of records in front of that tail. *)
Theorem iterator_accounting (records : list VariantRecord) (n : nat)
    (k k' : Kernel) (it : Iter) :
  find_first_homozygous_alt records n k = Py.Ok (it, k') ->
  exists consumed : list VariantRecord,
    records = (consumed ++ pending it)%list
    /\ yielded it = (n + List.length consumed)%nat.
Proof.
  intros Hrun.
  destruct (find_outcome records n k)
    as [(pre & r & post & Hrs & _ & _ & Hloop)
       | [[_ Hloop] | (pre & r & post & _ & _ & _ & Hloop)]];
    rewrite Hloop in Hrun; [| | discriminate];
    injection Hrun as <- _; cbn [pending yielded].
  - exists (pre ++ [r])%list. rewrite <- app_assoc. split; [exact Hrs |].
    rewrite length_app. cbn [List.length]. lia.
  - exists records. now rewrite app_nil_r.
Qed.

Lemma iterator_accounting_witness :
  exists consumed : list VariantRecord,
    [v1; v2; v3] = (consumed ++ [v3])%list
    /\ 2%nat = (0 + List.length consumed)%nat.
Proof.
  apply (iterator_accounting [v1; v2; v3] 0 fresh
           (broke_at v2 (with_record v1 fresh))
           {| pending := [v3]; yielded := 2 |}).
  reflexivity.
Defined.

(** ** What the scan depends on *)

Lemma is_homozygous_alt_first_sample (r r' : VariantRecord) :
  nth_error (genotypes r) 0 = nth_error (genotypes r') 0 ->
  is_homozygous_alt r = is_homozygous_alt r'.
Proof.
  intros H. unfold is_homozygous_alt, Py.index. now rewrite H.
Qed.

(** X9: apart from printing the record it stops at, the scan uses the
    first sample and the start of a record and nothing else of it. Two
    streams whose records agree, one by one, on
    the start and on the genotype of the first sample (contig and the
    genotypes of all other samples may differ) make the loop end in the
    same way: with the same exception, or normally with the same number of
    records produced, as many records left and the same [var_pos]. *)
Theorem only_first_sample_matters (rs rs' : list VariantRecord) :
  Forall2 same_first_sample rs rs' ->
  forall (n : nat) (k k' : Kernel),
    g_var_pos k = g_var_pos k' ->
    match find_first_homozygous_alt rs n k,
          find_first_homozygous_alt rs' n k' with
    | Py.Ok (it, k1), Py.Ok (it', k1') =>
        yielded it = yielded it'
        /\ List.length (pending it) = List.length (pending it')
        /\ g_var_pos k1 = g_var_pos k1'
    | Py.Raise e, Py.Raise e' => e = e'
    | _, _ => False
    end.
Proof.
  induction 1 as [| r r' rs rs' [Hstart Hfirst] Hrest IH]; intros n k k' Hv.
  - cbn. repeat split. exact Hv.
  - cbn [find_first_homozygous_alt].
    unfold bind at 1 3. unfold set_record.
    unfold bind at 1 3. unfold lift.
    rewrite (is_homozygous_alt_first_sample r r' Hfirst).
    destruct (is_homozygous_alt r') as [[|] | e].
    + cbn. rewrite Hstart. repeat split.
      exact (Forall2_length Hrest).
    + apply IH. exact Hv.
    + reflexivity.
Qed.

Lemma only_first_sample_matters_witness :
  match find_first_homozygous_alt [v1; v2; v3] 0 fresh,
        find_first_homozygous_alt cohort 0 kernel_a with
  | Py.Ok (it, k1), Py.Ok (it', k1') =>
      yielded it = yielded it'
      /\ List.length (pending it) = List.length (pending it')
      /\ g_var_pos k1 = g_var_pos k1'
  | Py.Raise e, Py.Raise e' => e = e'
  | _, _ => False
  end.
Proof.
  apply (only_first_sample_matters [v1; v2; v3] cohort).
  - repeat constructor.
  - reflexivity.
Defined.

(** ** The three cells together *)

(** X10: a full run that finds a variant, from any kernel, for positions
    and an offset whose differences are within the limit of [str]. When
    the records for the translated region begin with records of other
    first-sample genotypes followed by a record [r] with first-sample
    genotype (1,1) and a start within the limit, the notebook ends
    normally, [var_pos] is [r.start] as the reader gave it (the offset is
    not added back), the region for the subgraph extraction starts and
    ends at that one position on [GRCh38.chr1], and the output is, in
    this order, the line with the translated region, the record, and the
    message with the position. *)
Theorem notebook_finds_variant (vcf_reader : string -> list VariantRecord)
    (s e o : Z) (k : Kernel) (pre post : list VariantRecord)
    (r : VariantRecord) :
  Py.fits (s - o) = true -> Py.fits (e - o) = true ->
  vcf_reader (query_text "chr1" (s - o) (e - o)) = (pre ++ r :: post)%list ->
  Forall other_genotype pre ->
  first_sample r (1, 1) ->
  Py.fits (start r) = true ->
  exists k',
    notebook [s; e] o vcf_reader k =
    Py.Ok ({| pending := post; yielded := S (List.length pre) |}, k')
    /\ g_var_pos k' = Some (Py.Int (start r))
    /\ g_region k' = Some (query_text "GRCh38.chr1" (start r) (start r))
    /\ stdout k' =
       (stdout k ++
        [Text ("In this slice of the pangenome, the region of interest is at: "
               ++ query_text "chr1" (s - o) (e - o));
         Line r;
         Text ("There is a variant at position " ++ Py.decimal (start r))])%list.
Proof.
  intros Hs He Hrs Hpre Hr Hfit.
  set (k0 := with_var_pos (Py.Str EmptyString) (after_translate s e o k)).
  assert (Hloop :
            find_first_homozygous_alt
              (vcf_reader (query_text "chr1" (s - o) (e - o))) 0 k0
            = Py.Ok ({| pending := post; yielded := S (List.length pre) |},
                     broke_at r (passed_over pre k0))).
  { rewrite Hrs, (find_prefix pre _ Hpre). now apply find_hit. }
  eexists. split.
  - apply (notebook_run vcf_reader s e o k _ _ (Py.Int (start r))
             (Py.decimal (start r)) Hs He Hloop eq_refl
             (str_int_fits _ Hfit)).
  - split; [reflexivity |]. split; [reflexivity |].
    cbn [with_region with_output broke_at with_var_pos with_record stdout].
    rewrite passed_over_stdout. unfold k0.
    cbn [with_var_pos after_translate with_output stdout].
    now rewrite <- !app_assoc.
Qed.

Lemma notebook_finds_variant_witness :
  exists k',
    notebook coord_wg_nb offset_nb (fun _ => [v1; v2; v3]) fresh =
    Py.Ok ({| pending := [v3]; yielded := 2 |}, k')
    /\ g_var_pos k' = Some (Py.Int 355040)
    /\ g_region k' = Some "GRCh38.chr1:355040-355040"
    /\ stdout k' =
       [Text "In this slice of the pangenome, the region of interest is at: chr1:355036-355222";
        Line v2;
        Text "There is a variant at position 355040"].
Proof.
  apply (notebook_finds_variant (fun _ => [v1; v2; v3])
           25408683 25408869 25053647 fresh [v1] [v3] v2).
  - reflexivity.
  - reflexivity.
  - reflexivity.
  - constructor; [| constructor].
    exists (0, 1). split; [reflexivity | discriminate].
  - reflexivity.
  - reflexivity.
Defined.



(** ** What each cell leaves alone *)

Lemma read_inv {A} (name : string) (field : Kernel -> option A)
    (k k1 : Kernel) (a : A) :
  read name field k = Py.Ok (a, k1) -> k1 = k /\ field k = Some a.
Proof.
  unfold read. destruct (field k); [| discriminate].
  intros H. injection H as -> ->. now split.
Qed.

Lemma lift_inv {A} (r : Py.res A) (k k1 : Kernel) (a : A) :
  lift r k = Py.Ok (a, k1) -> k1 = k /\ r = Py.Ok a.
Proof.
  unfold lift. destruct r; [| discriminate].
  intros H. injection H as -> ->. now split.
Qed.

(** Building the query changes nothing. *)
Lemma region_query_inv (k k1 : Kernel) (q : string) :
  region_query k = Py.Ok (q, k1) -> k1 = k.
Proof.
  unfold region_query. intros H.
  apply bind_inv in H as (l0 & k2 & H0 & H). apply read_inv in H0 as [-> _].
  apply bind_inv in H as (a & k2 & H0 & H). apply lift_inv in H0 as [-> _].
  apply bind_inv in H as (l1 & k2 & H0 & H). apply read_inv in H0 as [-> _].
  apply bind_inv in H as (b & k2 & H0 & H). apply lift_inv in H0 as [-> _].
  now apply lift_inv in H as [-> _].
Qed.

Lemma same_region_names_refl (k : Kernel) : same_region_names k k.
Proof. repeat split. Qed.

Lemma same_region_names_trans (k1 k2 k3 : Kernel) :
  same_region_names k1 k2 -> same_region_names k2 k3 ->
  same_region_names k1 k3.
Proof.
  unfold same_region_names.
  intros (A1 & A2 & A3 & A4 & A5) (B1 & B2 & B3 & B4 & B5).
  repeat split; congruence.
Qed.

Lemma passed_over_region_names (rs : list VariantRecord) (k : Kernel) :
  same_region_names k (passed_over rs k).
Proof.
  unfold same_region_names.
  repeat split; now apply passed_over_frame.
Qed.

(** The loop assigns [record] and [var_pos] and prints; it assigns no
    other name. *)
Lemma find_region_names (records : list VariantRecord) (n : nat)
    (k k' : Kernel) (it : Iter) :
  find_first_homozygous_alt records n k = Py.Ok (it, k') ->
  same_region_names k k'.
Proof.
  intros Hrun.
  destruct (find_outcome records n k)
    as [(pre & r & post & _ & _ & _ & Hloop)
       | [[_ Hloop] | (pre & r & post & _ & _ & _ & Hloop)]];
    rewrite Hloop in Hrun; [| | discriminate]; injection Hrun as _ <-.
  - apply (same_region_names_trans _ _ _ (passed_over_region_names pre k)).
    repeat split.
  - apply passed_over_region_names.
Qed.

(** The scan cell as its steps, when it ends normally: the query it
    asks, the state the loop ends in, and the text it prints last. *)
Lemma scan_cell_inv (vcf_reader : string -> list VariantRecord)
    (k k' : Kernel) (it : Iter) :
  scan_cell vcf_reader k = Py.Ok (it, k') ->
  exists (q t : string) (v : Py.value) (ka : Kernel),
    region_query (with_var_pos (Py.Str EmptyString) k)
    = Py.Ok (q, with_var_pos (Py.Str EmptyString) k)
    /\ find_first_homozygous_alt (vcf_reader q) 0
         (with_var_pos (Py.Str EmptyString) k) = Py.Ok (it, ka)
    /\ g_var_pos ka = Some v
    /\ Py.format "There is a variant at position {}" [v] = Py.Ok t
    /\ k' = with_output (Text t) ka.
Proof.
  intros Hrun. unfold scan_cell in Hrun.
  apply bind_inv in Hrun as ([] & k0 & H0 & Hrun). injection H0 as <-.
  apply bind_inv in Hrun as (q & k1 & Hq & Hrun).
  pose proof (region_query_inv _ _ _ Hq) as ->.
  apply bind_inv in Hrun as (it0 & ka & Hloop & Hrun).
  apply bind_inv in Hrun as (v & kb & Hread & Hrun).
  apply read_inv in Hread as [-> Hv].
  apply bind_inv in Hrun as (t & kb & H0 & Hrun).
  apply lift_inv in H0 as [-> Ht].
  apply bind_inv in Hrun as ([] & kb & H0 & Hrun).
  injection H0 as <-. injection Hrun as <- <-.
  exists q, t, v, ka.
  split; [exact Hq |]. split; [exact Hloop |]. split; [exact Hv |].
  split; [exact Ht | reflexivity].
Qed.

Lemma scan_cell_region_names (vcf_reader : string -> list VariantRecord)
    (k k' : Kernel) (it : Iter) :
  scan_cell vcf_reader k = Py.Ok (it, k') -> same_region_names k k'.
Proof.
  intros Hrun.
  apply scan_cell_inv in Hrun as (q & t & v & ka & _ & Hloop & _ & _ & ->).
  apply find_region_names in Hloop.
  apply (same_region_names_trans _ (with_var_pos (Py.Str EmptyString) k));
    [repeat split |].
  apply (same_region_names_trans _ _ _ Hloop). repeat split.
Qed.

(** X12: the translation cell and the scan cell assign their own names
    and no other. A run of the translation cell that ends normally leaves
    [var_pos], [record] and [region] as they were; a run of the scan cell
    that ends normally leaves [coord_wg], [offset], [coord_sub],
    [region_subset] and [region] as they were, whether it finds a variant
    or not. *)
Theorem cells_write_their_own_names
    (vcf_reader : string -> list VariantRecord) (k : Kernel) :
  (forall (coord_wg : list Z) (o : Z) (k' : Kernel),
      translate_region coord_wg o k = Py.Ok (tt, k') ->
      g_var_pos k' = g_var_pos k /\ g_record k' = g_record k
      /\ g_region k' = g_region k)
  /\ (forall (it : Iter) (k' : Kernel),
         scan_cell vcf_reader k = Py.Ok (it, k') ->
         same_region_names k k').
Proof.
  split.
  - intros [| a [| b rest]] o k' Hrun;
      [discriminate Hrun | discriminate Hrun |].
    rewrite translate_region_cases_list in Hrun.
    destruct (Py.fits (a - o) && Py.fits (b - o)); [| discriminate Hrun].
    injection Hrun as <-. repeat split.
  - intros it k' Hrun. exact (scan_cell_region_names _ _ _ _ Hrun).
Qed.

Lemma cells_write_their_own_names_witness :
  (g_var_pos (after_translate 1 2 3 kernel_b) = g_var_pos kernel_b
   /\ g_record (after_translate 1 2 3 kernel_b) = g_record kernel_b
   /\ g_region (after_translate 1 2 3 kernel_b) = g_region kernel_b)
  /\ same_region_names kernel_b
       (with_output (Text "There is a variant at position 355040")
          (broke_at v2 (with_var_pos (Py.Str EmptyString) kernel_b))).
Proof.
  split.
  - apply (proj1 (cells_write_their_own_names (fun _ => [v2]) kernel_b)
             [1; 2] 3). reflexivity.
  - apply (proj2 (cells_write_their_own_names (fun _ => [v2]) kernel_b)
             {| pending := []; yielded := 1 |}). reflexivity.
Defined.

(** ** Slices of slices *)

(** X13: translating twice is translating once by the sum of the offsets.
    Feeding the [coord_sub] that lines 328 to 330 give for offset [o1] to
    the same lines with offset [o2] binds [coord_sub] to what a single run
    on the first coordinates with offset [o1 + o2] binds it to. This holds
    for a list of any length, the empty one included, and for integers of
    any size: none of the three runs raises. *)
Theorem offsets_compose (coord_wg : list Z) (o1 o2 : Z) (k : Kernel) :
  exists (k1 k2 k3 : Kernel) (cs : list Z),
    translate_coords coord_wg o1 k = Py.Ok (tt, k1)
    /\ g_coord_sub k1 = Some cs
    /\ translate_coords cs o2 k1 = Py.Ok (tt, k2)
    /\ translate_coords coord_wg (o1 + o2) k = Py.Ok (tt, k3)
    /\ g_coord_sub k2 = g_coord_sub k3.
Proof.
  eexists. eexists. eexists.
  exists (map (fun pos => translate pos o1) coord_wg).
  split; [apply translate_coords_run |].
  split; [reflexivity |].
  split; [apply translate_coords_run |].
  split; [apply translate_coords_run |].
  cbn [g_coord_sub with_coord_sub]. f_equal.
  rewrite map_map. apply map_ext. intros p. unfold translate. lia.
Qed.

(** ** The loop variable *)

Lemma last_cons {A} (x d : A) (l : list A) : last (x :: l) d = last l x.
Proof.
  revert x d. induction l as [| y l IH]; intros x d; [reflexivity |].
  change (last (x :: y :: l) d) with (last (y :: l) d).
  now rewrite (IH y d), (IH y x).
Qed.

Lemma passed_over_record (rs : list VariantRecord) (k : Kernel) :
  g_record (passed_over rs k) = last (map Some rs) (g_record k).
Proof.
  revert k. unfold passed_over.
  induction rs as [| r rs IH]; intros k; [reflexivity |].
  cbn [fold_left map]. now rewrite IH, last_cons.
Qed.

(** X14: what [record] is bound to after a scan that finds nothing. The
    loop variable stays bound after the loop: to the last record of the
    stream when there is one, and, when the stream is empty, to whatever
    it was bound to before the cell ran, which may be nothing at all. *)
Theorem record_after_no_match (rs : list VariantRecord) (n : nat)
    (k : Kernel) :
  Forall other_genotype rs ->
  exists k',
    find_first_homozygous_alt rs n k =
    Py.Ok ({| pending := []; yielded := n + List.length rs |}, k')
    /\ g_record k' = last (map Some rs) (g_record k).
Proof.
  intros Hrs. exists (passed_over rs k).
  split; [now apply find_exhausted | apply passed_over_record].
Qed.

Lemma record_after_no_match_witness :
  (exists k',
      find_first_homozygous_alt [v1; with_genotype (0, 0)] 0 fresh =
      Py.Ok ({| pending := []; yielded := 2 |}, k')
      /\ g_record k' = Some (with_genotype (0, 0)))
  /\ (exists k',
         find_first_homozygous_alt [] 0 fresh =
         Py.Ok ({| pending := []; yielded := 0 |}, k')
         /\ g_record k' = None).
Proof.
  split.
  - apply (record_after_no_match [v1; with_genotype (0, 0)] 0 fresh).
    constructor; [| constructor; [| constructor]].
    + exists (0, 1). split; [reflexivity | discriminate].
    + exists (0, 0). split; [reflexivity | discriminate].
  - apply (record_after_no_match [] 0 fresh). constructor.
Defined.

(** ** Running the scan cell again *)

(** The query depends on [coord_sub] alone. *)
Lemma region_query_any_kernel (k1 k2 : Kernel) (q : string) :
  region_query k1 = Py.Ok (q, k1) ->
  g_coord_sub k2 = g_coord_sub k1 ->
  region_query k2 = Py.Ok (q, k2).
Proof.
  unfold region_query. intros Hq Hcs.
  apply bind_inv in Hq as (l0 & kq & H0 & Hq).
  apply read_inv in H0 as [-> Hl0].
  apply bind_inv in Hq as (a & kq & H0 & Hq).
  apply lift_inv in H0 as [-> Ha].
  apply bind_inv in Hq as (l1 & kq & H0 & Hq).
  apply read_inv in H0 as [-> Hl1].
  apply bind_inv in Hq as (b & kq & H0 & Hq).
  apply lift_inv in H0 as [-> Hb].
  apply lift_inv in Hq as [_ Hfmt].
  rewrite <- Hcs in Hl0, Hl1.
  rewrite (bind_ok _ _ _ _ _ (read_ok "coord_sub" _ _ _ Hl0)).
  unfold bind at 1. unfold lift at 1. rewrite Ha.
  rewrite (bind_ok _ _ _ _ _ (read_ok "coord_sub" _ _ _ Hl1)).
  unfold bind at 1. unfold lift at 1. rewrite Hb.
  unfold lift. now rewrite Hfmt.
Qed.

(** The loop's iterator and the position it stores do not depend on the
    kernel the loop starts from. *)
Lemma find_any_kernel (records : list VariantRecord) (n : nat)
    (k1 k1' : Kernel) (it : Iter) :
  find_first_homozygous_alt records n k1 = Py.Ok (it, k1') ->
  forall k2 : Kernel,
    g_var_pos k2 = g_var_pos k1 ->
    exists k2',
      find_first_homozygous_alt records n k2 = Py.Ok (it, k2')
      /\ g_var_pos k2' = g_var_pos k1'.
Proof.
  intros Hrun k2 Hv.
  destruct (find_outcome records n k1)
    as [(pre & r & post & Hrs & Hpre & Hr & Hloop)
       | [[Hall Hloop] | (pre & r & post & _ & _ & _ & Hloop)]];
    rewrite Hloop in Hrun; [| | discriminate]; injection Hrun as <- <-.
  - exists (broke_at r (passed_over pre k2)). split; [| reflexivity].
    now rewrite Hrs, (find_prefix pre _ Hpre), (find_hit r post _ _ Hr).
  - exists (passed_over records k2). split.
    + now apply find_exhausted.
    + now rewrite !passed_over_var_pos.
Qed.

(** X15: running the scan cell a second time gives the same answer. After
    a run that ends normally, a second run with the same reader ends
    normally too, with the same iterator state and the same [var_pos]:
    the position is set anew from [''] each time, it is not carried over
    or accumulated. The names of the translation cell stay as they
    were. *)
Theorem scan_cell_rerun (vcf_reader : string -> list VariantRecord)
    (k k1 : Kernel) (it : Iter) :
  scan_cell vcf_reader k = Py.Ok (it, k1) ->
  exists k2,
    scan_cell vcf_reader k1 = Py.Ok (it, k2)
    /\ g_var_pos k2 = g_var_pos k1
    /\ same_region_names k1 k2.
Proof.
  intros Hrun.
  pose proof (scan_cell_region_names _ _ _ _ Hrun) as (_ & _ & Hcs & _).
  apply scan_cell_inv in Hrun as (q & t & v & ka & Hq & Hloop & Hv & Ht & ->).
  set (k0 := with_var_pos (Py.Str EmptyString) (with_output (Text t) ka)).
  assert (Hq0 : region_query k0 = Py.Ok (q, k0))
    by (apply (region_query_any_kernel _ k0 q Hq); exact Hcs).
  destruct (find_any_kernel _ _ _ _ _ Hloop k0 eq_refl)
    as (k2' & Hloop2 & Hv2).
  assert (Hrun2 : scan_cell vcf_reader (with_output (Text t) ka)
                  = Py.Ok (it, with_output (Text t) k2')).
  { unfold scan_cell.
    unfold bind at 1. unfold set_var_pos. fold k0.
    rewrite (bind_ok _ _ _ _ _ Hq0), (bind_ok _ _ _ _ _ Hloop2).
    assert (Hv' : g_var_pos k2' = Some v) by congruence.
    rewrite (bind_ok _ _ _ _ _ (read_ok "var_pos" _ _ _ Hv')).
    unfold bind at 1. unfold lift. rewrite Ht. reflexivity. }
  exists (with_output (Text t) k2'). split; [exact Hrun2 |]. split.
  - cbn [g_var_pos with_output]. exact Hv2.
  - exact (scan_cell_region_names _ _ _ _ Hrun2).
Qed.

Lemma scan_cell_rerun_witness :
  exists k2,
    scan_cell (fun _ => [v1; v2; v3])
      (with_output (Text "There is a variant at position 355040")
         (broke_at v2
            (with_record v1
               (with_var_pos (Py.Str EmptyString)
                  (with_coord_sub [355036; 355222] fresh)))))
    = Py.Ok ({| pending := [v3]; yielded := 2 |}, k2)
    /\ g_var_pos k2 = Some (Py.Int 355040)
    /\ same_region_names
         (with_output (Text "There is a variant at position 355040")
            (broke_at v2
               (with_record v1
                  (with_var_pos (Py.Str EmptyString)
                     (with_coord_sub [355036; 355222] fresh)))))
         k2.
Proof.
  apply (scan_cell_rerun (fun _ => [v1; v2; v3])
           (with_coord_sub [355036; 355222] fresh)).
  reflexivity.
Defined.

(** ** Reading the outcome off the region *)

(** X16: the region text tells what the scan found. For two kernels whose
    [var_pos] is a value the scan cell can leave (the empty string or an
    integer), if the region cell binds [region] to the same text in both,
    then [var_pos] is the same in both: no two positions share a region
    text, and the text left by a scan without a match is the text of no
    position. *)
Theorem region_tells_outcome (k1 k2 k1' k2' : Kernel) (w1 w2 : Py.value) :
  g_var_pos k1 = Some w1 -> g_var_pos k2 = Some w2 ->
  scan_value w1 -> scan_value w2 ->
  region_cell k1 = Py.Ok (tt, k1') ->
  region_cell k2 = Py.Ok (tt, k2') ->
  g_region k1' = g_region k2' ->
  w1 = w2.
Proof.
  intros Hw1 Hw2 Hs1 Hs2 Hrun1 Hrun2 Hregion.
  rewrite (region_cell_cases w1 k1 Hw1) in Hrun1.
  rewrite (region_cell_cases w2 k2 Hw2) in Hrun2.
  assert (Htext : forall (w : Py.value) (k k' : Kernel),
             scan_value w ->
             match Py.str w with
             | Py.Ok t =>
                 Py.Ok (tt, with_region
                              ("GRCh38.chr1" ++ ":" ++ t ++ "-" ++ t) k)
             | Py.Raise e => Py.Raise e
             end = Py.Ok (tt, k') ->
             (w = Py.Str EmptyString /\ g_region k' = Some "GRCh38.chr1:-")
             \/ exists p : Z,
                  w = Py.Int p
                  /\ g_region k' = Some (query_text "GRCh38.chr1" p p)).
  { intros w k k' [-> | [p ->]] Hrun; cbn [Py.str] in Hrun.
    - left. injection Hrun as <-. now split.
    - right. exists p. destruct (Py.str_int p) as [t | e] eqn:Hp;
        [| discriminate Hrun].
      apply str_int_ok in Hp as [-> _]. injection Hrun as <-. now split. }
  destruct (Htext w1 k1 k1' Hs1 Hrun1) as [[-> H1] | (p1 & -> & H1)];
    destruct (Htext w2 k2 k2' Hs2 Hrun2) as [[-> H2] | (p2 & -> & H2)];
    rewrite H1, H2 in Hregion;
    apply (f_equal (fun x => match x with Some t => t | None => "chr1" end))
      in Hregion.
  - reflexivity.
  - now contradiction (dash_alone_is_no_query p2 p2).
  - symmetry in Hregion. now contradiction (dash_alone_is_no_query p1 p1).
  - destruct (query_text_inj "GRCh38.chr1" p1 p1 p2 p2 Hregion) as [-> _].
    reflexivity.
Qed.

Lemma region_tells_outcome_witness :
  Py.Int 355040 = Py.Int 355040.
Proof.
  apply (region_tells_outcome
           (with_var_pos (Py.Int 355040) fresh)
           (with_var_pos (Py.Int 355040) kernel_b)
           (with_region "GRCh38.chr1:355040-355040"
              (with_var_pos (Py.Int 355040) fresh))
           (with_region "GRCh38.chr1:355040-355040"
              (with_var_pos (Py.Int 355040) kernel_b))).
  - reflexivity.
  - reflexivity.
  - right. now exists 355040.
  - right. now exists 355040.
  - reflexivity.
  - reflexivity.
  - reflexivity.
Defined.

(** The restriction to the values of the scan cell is needed: a string of
    digits and the integer it spells give the same region. *)
Example region_of_digit_string :
  exists k1' k2',
    region_cell (with_var_pos (Py.Str "355040") fresh) = Py.Ok (tt, k1')
    /\ region_cell (with_var_pos (Py.Int 355040) fresh) = Py.Ok (tt, k2')
    /\ g_region k1' = g_region k2'.
Proof.
  eexists. eexists.
  split; [vm_compute; reflexivity |].
  split; [vm_compute; reflexivity | reflexivity].
Qed.
